(** * mspider: retry runner and batch loop of [mspider.py]

    A shallow embedding of the control flow of [mspider.py]: the function
    [scrape_with_retry] and the module-level loop over [categories].  The
    scraping engine ([SmartScraperGraph]), the clock, the console and the file
    system are external; every call into them is modelled by an oracle that
    says what the call does (returns or raises), and every effect the script
    performs is recorded, in program order, in a trace of events.

    The calls that can raise are the four calls of the [try] block of
    [scrape_with_retry], [time.sleep], [open] and [write]; a [print] of a
    message of the script itself returns.  What is raised is an instance of
    [Exception].  The delay is a Python [int]. *)

From Stdlib Require Import List String Ascii ZArith Lia Bool Arith DecimalString DecimalN.
Import ListNotations.

Local Open Scope string_scope.
Local Open Scope Z_scope.
Local Open Scope list_scope.

(** ** Strings and dates *)

(** [s.split(sep)] for a separator of one character: the pieces between the
    occurrences of [sep], at least one piece. *)
Fixpoint split (sep : ascii) (s : string) : list string :=
  match s with
  | EmptyString => [EmptyString]
  | String c s' =>
      if Ascii.eqb c sep then EmptyString :: split sep s'
      else match split sep s' with
           | [] => [String c EmptyString]
           | piece :: pieces => String c piece :: pieces
           end
  end.

(** [l[-1]] on a list of strings. *)
Definition last_piece (l : list string) : string := last l EmptyString.

(** [sep.join(l)] for a separator of one character. *)
Fixpoint join (sep : ascii) (l : list string) : string :=
  match l with
  | [] => EmptyString
  | [piece] => piece
  | piece :: pieces => (piece ++ String sep (join sep pieces))%string
  end.

(** The fields of [time.localtime()] that ['%Y%m%d'] reads. *)
Record struct_time : Type := StructTime { tm_year : Z; tm_mon : Z; tm_mday : Z }.

(** A number in decimal. *)
Definition decimal (n : Z) : string := NilEmpty.string_of_uint (N.to_uint (Z.to_N n)).

(** A number below 100 on two digits. *)
Definition two_digits (n : Z) : string :=
  if n <? 10 then String "0" (decimal n) else decimal n.

(** [time.strftime('%Y%m%d')] at local time [now]: the year in decimal, the
    month and the day of the month on two digits each. *)
Definition strftime_Ymd (now : struct_time) : string :=
  (decimal (tm_year now) ++ two_digits (tm_mon now) ++ two_digits (tm_mday now))%string.

(** A calendar date the clock can show. *)
Definition valid_date (now : struct_time) : Prop :=
  1000 <= tm_year now <= 9999 /\ 1 <= tm_mon now <= 12 /\ 1 <= tm_mday now <= 31.

Definition is_digit (c : ascii) : bool :=
  ((48 <=? nat_of_ascii c) && (nat_of_ascii c <=? 57))%nat.

Fixpoint all_digits (s : string) : bool :=
  match s with
  | EmptyString => true
  | String c s' => is_digit c && all_digits s'
  end.

Fixpoint has_char (c : ascii) (s : string) : bool :=
  match s with
  | EmptyString => false
  | String c' s' => Ascii.eqb c' c || has_char c s'
  end.

(** [from, from + 1, ...], [k] numbers. *)
Fixpoint upto (k : nat) (from : Z) : list Z :=
  match k with
  | O => []
  | S k' => from :: upto k' (from + 1)
  end.

Definition four_digit_number (s : string) : bool :=
  (String.length s =? 4)%nat && all_digits s.

Definition two_digit_number (s : string) : bool :=
  (String.length s =? 2)%nat && all_digits s.

(** ** Python values and exceptions *)

(** An instance of a subclass of [Exception].  [exn_text] is [str(e)].
    [KeyboardInterrupt] and [SystemExit] are not instances of [Exception];
    they are not caught by the script and end the process from outside. *)
Record exn : Type := Exn { exn_class : string; exn_text : string }.

Definition ValueError (text : string) : exn := Exn "ValueError" text.

Definition OverflowError (text : string) : exn := Exn "OverflowError" text.

(** The longest sleep, in seconds, that [time.sleep] accepts for an [int]:
    a longer one, in nanoseconds, does not fit the C integer the
    interpreter converts it to. *)
Definition max_sleep : Z := 9223372036.

(** A duration [time.sleep] accepts. *)
Definition sleepable (secs : Z) : Prop := 0 <= secs <= max_sleep.

(** The first [k] waits of a backoff that starts at [delay] are durations
    [time.sleep] accepts. *)
Definition waits_fit (delay k : Z) : Prop :=
  forall i, 0 <= i < k -> sleepable (delay * 2 ^ i).

(** The number a string of decimal digits stands for. *)
Fixpoint number_from (acc : Z) (s : string) : Z :=
  match s with
  | EmptyString => acc
  | String c s' => number_from (acc * 10 + (Z.of_nat (nat_of_ascii c) - 48)) s'
  end.

Definition number_of (s : string) : Z := number_from 0 s.

(** An error of the engine, for tests. *)
Definition boom : exn := Exn "TimeoutError" "engine timed out".

Section Script.

(** What [scraper.run()] returns and what [scraper.get_execution_info()]
    returns are objects of the library; the script only passes them on. *)
Variable Result : Type.
Variable ExecInfo : Type.

(** [str(result)] for an object returned by the engine. *)
Variable str_of_result : Result -> string.

(** What [scrape_with_retry] hands back: [PyObj r] when it returns the
    object [r] that [run()] returned (any object of the engine, Python's
    [None] included, if [run()] returns it), [PyNone] when it falls off the
    end of its loop. *)
Inductive pyval : Type :=
| PyNone
| PyObj (r : Result).

Definition py_str (v : pyval) : string :=
  match v with
  | PyNone => "None"
  | PyObj r => str_of_result r
  end.

(** ** Effects *)

(** The lines the script prints, one constructor per [print] statement, with
    the values interpolated into the f-string. *)
Inductive message : Type :=
| ExecInfoReport (exec_info : ExecInfo)
    (* print(prettify_exec_info(exec_info)) *)
| AttemptFailed (number : Z) (url : string) (error : string)
    (* "Attempt {attempt + 1} failed for {url}: {str(e)}" *)
| Waiting (delay : Z)
    (* "Waiting {delay} seconds before retry..." *)
| GaveUp (url : string) (max_retries : Z)
    (* "Failed to scrape {url} after {max_retries} attempts" *)
| Scraping (category_url : string)
    (* "\nScraping category: {category_url}" *)
| Saved (filename : string)
    (* "Results saved to {filename}" *)
| ErrorScraping (category_url : string) (error : string).
    (* "Error scraping {category_url}: {str(e)}" *)

Inductive event : Type :=
| NewScraper (source : string)         (* SmartScraperGraph(..., source=url, ...) *)
| Run (source : string)                (* scraper.run() *)
| Print (m : message)                  (* print(...) *)
| Sleep (secs : Z)                     (* time.sleep(secs) *)
| FileOpened (name : string)           (* open(name, 'w'): created or truncated *)
| FileWritten (name content : string)  (* f.write(content), file closed *)
| FileWriteFailed (name written : string).
    (* f.write(content) or the closing of the file raised when [written],
       the beginning of [content], had reached the file *)

Definition trace : Type := list event.

(** A computation either returns a value or raises, and leaves a trace. *)
Inductive outcome (A : Type) : Type :=
| Returned (a : A)
| Raised (e : exn).
Arguments Returned {A} a.
Arguments Raised {A} e.

Definition io (A : Type) : Type := (outcome A * trace)%type.

Definition ret {A} (a : A) : io A := (Returned a, []).
Definition raise {A} (e : exn) : io A := (Raised e, []).
Definition emit (ev : event) : io unit := (Returned tt, [ev]).

Definition bind {A B} (m : io A) (k : A -> io B) : io B :=
  match m with
  | (Returned a, t) => let (o, t') := k a in (o, t ++ t')
  | (Raised e, t) => (Raised e, t)
  end.

(** [try: m  except Exception as e: h e] *)
Definition try_except {A} (m : io A) (h : exn -> io A) : io A :=
  match m with
  | (Returned a, t) => (Returned a, t)
  | (Raised e, t) => let (o, t') := h e in (o, t ++ t')
  end.

(** The [try] part alone, with the exception handed over as a value, for a
    handler that goes on with the enclosing loop. *)
Definition attempt_of {A} (m : io A) : io (exn + A) :=
  match m with
  | (Returned a, t) => (Returned (inr a), t)
  | (Raised e, t) => (Returned (inl e), t)
  end.

Notation "x <- m ;; k" := (bind m (fun x => k))
  (at level 100, m at next level, right associativity).
Notation "m ;; k" := (bind m (fun _ => k))
  (at level 100, right associativity).

(** A call into the environment that returns nothing, and one that returns
    a value; the oracle says whether it raises. *)
Definition call (o : option exn) : io unit :=
  match o with
  | None => ret tt
  | Some e => raise e
  end.

Definition call_for {A} (o : exn + A) : io A :=
  match o with
  | inl e => raise e
  | inr a => ret a
  end.

(** [time.sleep(secs)] for an [int]: [OverflowError] when the duration does
    not fit, then [ValueError] when it is negative. *)
Definition time_sleep (secs : Z) : io unit :=
  if (secs <? - max_sleep) || (max_sleep <? secs) then
    raise (OverflowError "timestamp too large to convert to C _PyTime_t")
  else if secs <? 0 then
    raise (ValueError "sleep length must be non-negative")
  else emit (Sleep secs).

(** ** [scrape_with_retry] *)

(** What the four calls inside the [try] block do on one attempt. *)
Record engine_calls : Type := EngineCalls {
  on_construct : option exn;            (* SmartScraperGraph(...) *)
  on_run : exn + Result;                (* scraper.run() *)
  on_get_execution_info : exn + ExecInfo; (* scraper.get_execution_info() *)
  on_print_exec_info : option exn       (* print(prettify_exec_info(exec_info)) *)
}.

(** Lines 79-105: the body of the [try]. *)
Definition try_body (url : string) (c : engine_calls) : io Result :=
  emit (NewScraper url) ;;
  call (on_construct c) ;;
  emit (Run url) ;;
  result <- call_for (on_run c) ;;
  exec_info <- call_for (on_get_execution_info c) ;;
  call (on_print_exec_info c) ;;
  emit (Print (ExecInfoReport exec_info)) ;;
  ret result.

(** [range(n)] *)
Definition range (n : Z) : list Z := map Z.of_nat (seq 0 (Z.to_nat n)).

(** Lines 77-116: the [for] loop, over the values of [attempt] still to
    come.  [engine attempt] is what the engine does on that iteration. *)
Fixpoint retry_loop (url : string) (max_retries : Z) (engine : Z -> engine_calls)
    (attempts : list Z) (delay : Z) {struct attempts} : io pyval :=
  match attempts with
  | [] => ret PyNone
  | attempt :: rest =>
      r <- attempt_of (try_body url (engine attempt)) ;;
      match r with
      | inr result => ret (PyObj result)
      | inl e =>
          emit (Print (AttemptFailed (attempt + 1) url (exn_text e))) ;;
          if attempt <? max_retries - 1 then
            emit (Print (Waiting delay)) ;;
            time_sleep delay ;;
            retry_loop url max_retries engine rest (delay * 2)
          else
            emit (Print (GaveUp url max_retries)) ;;
            raise e
      end
  end.

Definition scrape_with_retry (url : string) (max_retries delay : Z)
    (engine : Z -> engine_calls) : io pyval :=
  retry_loop url max_retries engine (range max_retries) delay.

Definition default_max_retries : Z := 3.
Definition default_delay : Z := 5.

(** ** The main scraping loop *)

Definition categories : list string := ["Cell Phones"; "Tablets"; "Computers"].

(** What the environment does while one category is processed: the engine
    on each attempt, the local time when the file name is built, and the
    file system on [open] and on [write]/close.  A write that fails raises
    [e] when the first [k] characters of the content have reached the file
    ([on_write = Some (e, k)]). *)
Record item_calls : Type := ItemCalls {
  engine : Z -> engine_calls;
  localtime : struct_time;
  on_open : option exn;
  on_write : option (exn * nat)
}.

(** Lines 125-126. *)
Definition category_name (category_url : string) : string :=
  last_piece (split "/" category_url).

Definition output_name (category_url : string) (now : struct_time) : string :=
  ("mobilesentrix_" ++ category_name category_url ++ "_" ++ strftime_Ymd now
     ++ ".json")%string.

(** Lines 128-129: [with open(filename, 'w', encoding='utf-8') as f:
    f.write(content)]. *)
Definition write_text (c : item_calls) (filename content : string) : io unit :=
  call (on_open c) ;;
  emit (FileOpened filename) ;;
  match on_write c with
  | None => emit (FileWritten filename content)
  | Some (e, k) =>
      emit (FileWriteFailed filename (substring 0 k content)) ;;
      raise e
  end.

(** Lines 121-134: the [try] part of the loop body. *)
Definition item_try (c : item_calls) (category_url : string) : io unit :=
  emit (Print (Scraping category_url)) ;;
  result <- scrape_with_retry category_url default_max_retries default_delay
              (engine c) ;;
  let filename := output_name category_url (localtime c) in
  write_text c filename (py_str result) ;;
  emit (Print (Saved filename)) ;;
  time_sleep 5.

(** Lines 120-138: one iteration of the loop. *)
Definition loop_body (c : item_calls) (category_url : string) : io unit :=
  try_except (item_try c category_url)
    (fun e => emit (Print (ErrorScraping category_url (exn_text e)))).

(** Lines 119-138: the loop, over the items still to come; [world pos] is
    what the environment does while the item at position [pos] is
    processed. *)
Fixpoint main_loop (world : nat -> item_calls) (pos : nat) (items : list string)
    {struct items} : io unit :=
  match items with
  | [] => ret tt
  | category_url :: rest =>
      loop_body (world pos) category_url ;;
      main_loop world (S pos) rest
  end.

(** ** Reading a trace *)

(** The number of times the [try] block of [scrape_with_retry] was entered. *)
Definition attempts (t : trace) : nat :=
  List.length (filter (fun ev => match ev with NewScraper _ => true | _ => false end) t).

(** The durations slept, in order. *)
Definition sleeps (t : trace) : list Z :=
  flat_map (fun ev => match ev with Sleep d => [d] | _ => [] end) t.

(** The lines printed, in order. *)
Definition printed (t : trace) : list message :=
  flat_map (fun ev => match ev with Print m => [m] | _ => [] end) t.

(** The waits announced by "Waiting ... seconds before retry...". *)
Definition announced_waits (t : trace) : list Z :=
  flat_map (fun ev => match ev with Print (Waiting d) => [d] | _ => [] end) t.

(** The files written to the end, with their content. *)
Definition artifacts (t : trace) : list (string * string) :=
  flat_map (fun ev => match ev with FileWritten n c => [(n, c)] | _ => [] end) t.

(** The categories announced by "Scraping category: ...", in order. *)
Definition started (t : trace) : list string :=
  flat_map (fun ev => match ev with Print (Scraping u) => [u] | _ => [] end) t.



(** The events of each item of a batch: a trace cut at the "Scraping
    category" lines, each piece with the category its line names. *)
Fixpoint until_next_item (t : trace) : trace :=
  match t with
  | [] => []
  | Print (Scraping _) :: _ => []
  | ev :: t' => ev :: until_next_item t'
  end.

Fixpoint items_of_trace (t : trace) : list (string * trace) :=
  match t with
  | [] => []
  | Print (Scraping u) :: t' => (u, until_next_item t') :: items_of_trace t'
  | _ :: t' => items_of_trace t'
  end.

(** [delay, delay*2, delay*4, ...], [k] terms. *)
Definition geometric (delay : Z) (k : nat) : list Z :=
  map (fun i => delay * 2 ^ Z.of_nat i) (seq 0 k).

(** An item fails terminally when its retries are exhausted or when the
    file cannot be opened or written. *)
Definition fails_terminally (c : item_calls) (category_url : string) : bool :=
  match fst (scrape_with_retry category_url default_max_retries default_delay
               (engine c)) with
  | Raised _ => true
  | Returned _ =>
      match on_open c, on_write c with
      | None, None => false
      | _, _ => true
      end
  end.

(** The items of a batch with their positions. *)
Definition indexed (pos : nat) (items : list string) : list (nat * string) :=
  combine (seq pos (List.length items)) items.

(** ** Engines for tests *)

(** An attempt on which every call returns. *)
Definition completing (r : Result) (info : ExecInfo) : engine_calls :=
  EngineCalls None (inr r) (inr info) None.

(** An attempt on which [scraper.run()] raises [e]. *)
Definition run_raising (e : exn) : engine_calls :=
  EngineCalls None (inl e) (inl e) None.


(** An attempt on which [run()] returns [r] and then printing the execution
    report raises [e]. *)
Definition print_raising (r : Result) (info : ExecInfo) (e : exn) : engine_calls :=
  EngineCalls None (inr r) (inr info) (Some e).

(** The engine that fails on the first [k] attempts and completes on every
    later one. *)
Definition failing_first (k : Z) (e : exn) (r : Result) (info : ExecInfo)
    (attempt : Z) : engine_calls :=
  if attempt <? k then run_raising e else completing r info.

(** ** The shape of a run of the retry loop *)

(** [t] first, then [m]. *)
Definition preceded_by {A} (t : trace) (m : io A) : io A := (fst m, t ++ snd m).

(** The events of a failed attempt that is followed by a wait of [d]. *)
Definition failed_round (url : string) (engine : Z -> engine_calls)
    (err : Z -> exn) (a d : Z) : trace :=
  snd (try_body url (engine a))
    ++ [Print (AttemptFailed (a + 1) url (exn_text (err a)));
        Print (Waiting d); Sleep d].

Fixpoint failed_rounds (url : string) (engine : Z -> engine_calls)
    (err : Z -> exn) (k : nat) (a d : Z) : trace :=
  match k with
  | O => []
  | S k' => failed_round url engine err a d
              ++ failed_rounds url engine err k' (a + 1) (d * 2)
  end.

(** The events of one iteration of the main loop after the line that
    announces the category: the run of [scrape_with_retry], then what its
    outcome [o] leads to. *)
Definition after_scrape (c : item_calls) (category_url : string)
    (o : outcome pyval) : trace :=
  let filename := output_name category_url (localtime c) in
  match o with
  | Raised e => [Print (ErrorScraping category_url (exn_text e))]
  | Returned result =>
      match on_open c with
      | Some e => [Print (ErrorScraping category_url (exn_text e))]
      | None =>
          FileOpened filename ::
          match on_write c with
          | Some (e, k) =>
              [FileWriteFailed filename (substring 0 k (py_str result));
               Print (ErrorScraping category_url (exn_text e))]
          | None => [FileWritten filename (py_str result);
                     Print (Saved filename); Sleep 5]
          end
      end
  end.

Definition item_events (c : item_calls) (category_url : string) : trace :=
  let run := scrape_with_retry category_url default_max_retries default_delay
               (engine c) in
  snd run ++ after_scrape c category_url (fst run).

(** What is written for an item whose scrape returns: [str(result)]. *)
Definition item_content (c : item_calls) (category_url : string) : string :=
  match fst (scrape_with_retry category_url default_max_retries default_delay
               (engine c)) with
  | Returned v => py_str v
  | Raised _ => EmptyString
  end.

(** The items of a batch that do not fail terminally, with their positions. *)
Definition saved_items (world : nat -> item_calls) (pos : nat) (items : list string)
    : list (nat * string) :=
  filter (fun ju => negb (fails_terminally (world (fst ju)) (snd ju)))
    (indexed pos items).

(** A run of the batch on which the engine is down for the item at position
    [down] and answers [r] for every other item. *)
Definition engine_down_at (down : nat) (r : Result) (info : ExecInfo)
    (now : struct_time) (pos : nat) : item_calls :=
  ItemCalls (fun _ => if Nat.eqb pos down then run_raising boom else completing r info)
    now None None.

(** ** Further readings of a trace *)

(** The sum of a list of durations. *)
Definition total (l : list Z) : Z := fold_right Z.add 0 l.

(** The file names announced by "Results saved to ...", in order. *)
Definition saved_lines (t : trace) : list string :=
  flat_map (fun ev => match ev with Print (Saved f) => [f] | _ => [] end) t.

(** The categories and error texts of the "Error scraping ..." lines. *)
Definition error_lines (t : trace) : list (string * string) :=
  flat_map (fun ev => match ev with
                      | Print (ErrorScraping u e) => [(u, e)]
                      | _ => []
                      end) t.

(** The events [scrape_with_retry] can leave: those of its own lines. *)
Definition runner_event (ev : event) : bool :=
  match ev with
  | NewScraper _ | Run _ | Sleep _ => true
  | Print (ExecInfoReport _) | Print (AttemptFailed _ _ _)
  | Print (Waiting _) | Print (GaveUp _ _) => true
  | _ => false
  end.


(** The files on disk: the content of each file that exists. *)
Definition files : Type := string -> option string.

Definition set_file (fs : files) (name content : string) : files :=
  fun n => if String.eqb n name then Some content else fs n.

(** What an event does to the files: [open(name, 'w')] creates the file or
    empties it, [f.write(content)] adds at its end [content], or what of
    it was written when the write failed. *)
Definition file_effect (fs : files) (ev : event) : files :=
  match ev with
  | FileOpened name => set_file fs name EmptyString
  | FileWritten name content | FileWriteFailed name content =>
      set_file fs name
        (match fs name with
         | Some old => (old ++ content)%string
         | None => content
         end)
  | _ => fs
  end.

Definition files_after (t : trace) (fs : files) : files :=
  fold_left file_effect t fs.

(** The items of a batch that fail terminally, with their positions. *)
Definition failed_items (world : nat -> item_calls) (pos : nat) (items : list string)
    : list (nat * string) :=
  filter (fun ju => fails_terminally (world (fst ju)) (snd ju))
    (indexed pos items).

(** ** Lemmas on strings *)

Lemma append_assoc (a b c : string) : ((a ++ b) ++ c = a ++ (b ++ c))%string.
Proof. induction a as [|x a IH]; cbn; [reflexivity | now rewrite IH]. Qed.

Lemma length_append (a b : string) :
  String.length (a ++ b) = (String.length a + String.length b)%nat.
Proof. induction a as [|x a IH]; cbn; [reflexivity | now rewrite IH]. Qed.

Lemma all_digits_append (a b : string) :
  all_digits (a ++ b) = all_digits a && all_digits b.
Proof.
  induction a as [|x a IH]; cbn; [reflexivity | now rewrite IH, andb_assoc].
Qed.

Lemma has_char_append (c : ascii) (a b : string) :
  has_char c (a ++ b) = has_char c a || has_char c b.
Proof.
  induction a as [|x a IH]; cbn; [reflexivity | now rewrite IH, orb_assoc].
Qed.

Lemma split_nonempty (sep : ascii) (s : string) : split sep s <> [].
Proof.
  destruct s as [|c s]; cbn; [discriminate|].
  destruct (Ascii.eqb c sep); [discriminate|].
  destruct (split sep s); discriminate.
Qed.

(** [sep.join(s.split(sep)) == s] *)
Lemma join_split (sep : ascii) (s : string) : join sep (split sep s) = s.
Proof.
  induction s as [|c s IH]; [reflexivity|]. cbn [split].
  pose proof (split_nonempty sep s) as Hne.
  destruct (Ascii.eqb_spec c sep) as [->|Hc];
    destruct (split sep s) as [|w ws]; try contradiction.
  - cbn [join] in *. cbn. now rewrite IH.
  - destruct ws as [|w' ws]; cbn [join] in *; cbn; now rewrite IH.
Qed.

(** No piece of [s.split(sep)] contains [sep]. *)
Lemma split_pieces (sep : ascii) (s : string) :
  Forall (fun piece => has_char sep piece = false) (split sep s).
Proof.
  induction s as [|c s IH]; [repeat constructor|]. cbn [split].
  destruct (Ascii.eqb_spec c sep) as [->|Hc].
  - constructor; [reflexivity | exact IH].
  - destruct (split sep s) as [|w ws]; [repeat constructor|].
    + cbn. apply Ascii.eqb_neq in Hc. now rewrite Hc.
    + inversion IH; subst. constructor; [|assumption].
      cbn. apply Ascii.eqb_neq in Hc. now rewrite Hc.
Qed.

Lemma last_piece_cons (w w' : string) (ws : list string) :
  last_piece (w :: w' :: ws) = last_piece (w' :: ws).
Proof. reflexivity. Qed.

Lemma join_last (sep : ascii) (l : list string) :
  l <> [] ->
  join sep l = last_piece l
  \/ exists before, join sep l = (before ++ String sep (last_piece l))%string.
Proof.
  induction l as [|w ws IH]; intros Hne; [contradiction|].
  destruct ws as [|w' ws]; [left; reflexivity|]. right.
  rewrite last_piece_cons. cbn [join].
  destruct IH as [Heq | [before Heq]]; [discriminate | |].
  - exists w. cbn [join] in Heq. now rewrite Heq.
  - exists (w ++ String sep before)%string. cbn [join] in Heq.
    rewrite Heq, append_assoc. reflexivity.
Qed.

Lemma last_piece_in (l : list string) : l <> [] -> In (last_piece l) l.
Proof.
  induction l as [|w ws IH]; intros Hne; [contradiction|].
  destruct ws as [|w' ws]; [now left|].
  right. rewrite last_piece_cons. apply IH. discriminate.
Qed.

(** [s.split(sep)[-1]] is what follows the last [sep] in [s], and the
    whole of [s] when [sep] does not occur in it. *)
Lemma last_piece_split (sep : ascii) (s : string) :
  has_char sep (last_piece (split sep s)) = false
  /\ (s = last_piece (split sep s)
      \/ exists before, s = (before ++ String sep (last_piece (split sep s)))%string)
  /\ (has_char sep s = false -> last_piece (split sep s) = s).
Proof.
  pose proof (split_nonempty sep s) as Hne.
  pose proof (join_split sep s) as Hjoin.
  assert (Hfree : has_char sep (last_piece (split sep s)) = false).
  { pose proof (split_pieces sep s) as Hall. rewrite Forall_forall in Hall.
    apply Hall, last_piece_in, Hne. }
  destruct (join_last sep (split sep s) Hne) as [Heq | [before Heq]];
    rewrite Hjoin in Heq.
  - repeat split; auto.
  - repeat split; eauto. intros Hs. rewrite Heq in Hs at 1.
    rewrite has_char_append in Hs. cbn in Hs.
    rewrite Ascii.eqb_refl, orb_true_r in Hs. discriminate.
Qed.

Lemma in_upto (k : nat) :
  forall from y, from <= y < from + Z.of_nat k -> In y (upto k from).
Proof.
  induction k as [|k IH]; intros from y Hy; [lia|]. cbn [upto].
  destruct (Z.eq_dec from y) as [->|Hne]; [now left|].
  right. apply IH. lia.
Qed.

Lemma decimal_year (y : Z) :
  1000 <= y <= 9999 -> four_digit_number (decimal y) = true.
Proof.
  intros Hy.
  assert (H : forallb (fun y => four_digit_number (decimal y))
                (upto (Z.to_nat 9000) 1000) = true) by (vm_compute; reflexivity).
  rewrite forallb_forall in H. apply H, in_upto. lia.
Qed.

Lemma two_digits_number (n : Z) :
  0 <= n <= 99 -> two_digit_number (two_digits n) = true.
Proof.
  intros Hn.
  assert (H : forallb (fun n => two_digit_number (two_digits n))
                (upto (Z.to_nat 100) 0) = true) by (vm_compute; reflexivity).
  rewrite forallb_forall in H. apply H, in_upto. lia.
Qed.

(** On a calendar date, ['%Y%m%d'] gives eight digits. *)
Lemma strftime_Ymd_digits (now : struct_time) :
  valid_date now ->
  String.length (strftime_Ymd now) = 8%nat /\ all_digits (strftime_Ymd now) = true.
Proof.
  intros (Hy & Hm & Hd). unfold strftime_Ymd.
  pose proof (decimal_year (tm_year now) Hy) as H1.
  pose proof (two_digits_number (tm_mon now)) as H2.
  pose proof (two_digits_number (tm_mday now)) as H3.
  unfold four_digit_number, two_digit_number in *.
  rewrite andb_true_iff, Nat.eqb_eq in H1, H2, H3.
  destruct H1 as [L1 D1], H2 as [L2 D2], H3 as [L3 D3]; try lia.
  rewrite !length_append, !all_digits_append, L1, L2, L3, D1, D2, D3.
  split; reflexivity.
Qed.

(** ** Lemmas on traces *)

Lemma attempts_app (t1 t2 : trace) : attempts (t1 ++ t2) = (attempts t1 + attempts t2)%nat.
Proof. unfold attempts. now rewrite filter_app, length_app. Qed.

Lemma sleeps_app (t1 t2 : trace) : sleeps (t1 ++ t2) = sleeps t1 ++ sleeps t2.
Proof. apply flat_map_app. Qed.

Lemma printed_app (t1 t2 : trace) : printed (t1 ++ t2) = printed t1 ++ printed t2.
Proof. apply flat_map_app. Qed.

Lemma announced_waits_app (t1 t2 : trace) :
  announced_waits (t1 ++ t2) = announced_waits t1 ++ announced_waits t2.
Proof. apply flat_map_app. Qed.

Lemma artifacts_app (t1 t2 : trace) : artifacts (t1 ++ t2) = artifacts t1 ++ artifacts t2.
Proof. apply flat_map_app. Qed.

Lemma started_app (t1 t2 : trace) : started (t1 ++ t2) = started t1 ++ started t2.
Proof. apply flat_map_app. Qed.



Lemma geometric_S (d : Z) (k : nat) : geometric d (S k) = d :: geometric (d * 2) k.
Proof.
  unfold geometric. simpl. f_equal; [lia|].
  rewrite <- seq_shift, map_map. apply map_ext. intros i.
  rewrite Nat2Z.inj_succ, Z.pow_succ_r by lia. ring.
Qed.


(** ** One attempt *)

Ltac engine_cases c :=
  destruct c as [[?|] [?|?] [?|?] [?|]]; cbn in *.

Lemma try_body_starts (url : string) (c : engine_calls) :
  exists t', snd (try_body url c) = NewScraper url :: t'
             /\ attempts t' = 0%nat /\ sleeps t' = []
             /\ announced_waits t' = [] /\ artifacts t' = [] /\ started t' = [].
Proof. engine_cases c; eexists; repeat split; reflexivity. Qed.

Lemma try_body_attempts (url : string) (c : engine_calls) :
  attempts (snd (try_body url c)) = 1%nat.
Proof. engine_cases c; reflexivity. Qed.

Lemma try_body_sleeps (url : string) (c : engine_calls) :
  sleeps (snd (try_body url c)) = [].
Proof. engine_cases c; reflexivity. Qed.

Lemma try_body_announced_waits (url : string) (c : engine_calls) :
  announced_waits (snd (try_body url c)) = [].
Proof. engine_cases c; reflexivity. Qed.

Lemma try_body_artifacts (url : string) (c : engine_calls) :
  artifacts (snd (try_body url c)) = [].
Proof. engine_cases c; reflexivity. Qed.

Lemma try_body_started (url : string) (c : engine_calls) :
  started (snd (try_body url c)) = [].
Proof. engine_cases c; reflexivity. Qed.

(** A failed attempt prints nothing of its own. *)
Lemma try_body_raised_printed (url : string) (c : engine_calls) (e : exn) :
  fst (try_body url c) = Raised e -> printed (snd (try_body url c)) = [].
Proof. engine_cases c; intros H; try reflexivity; discriminate. Qed.

(** An attempt returns exactly when none of its four calls raises; it then
    returns what [run()] returned and has printed the execution report. *)
Lemma try_body_returned (url : string) (c : engine_calls) (r : Result) :
  fst (try_body url c) = Returned r <->
  exists info, c = EngineCalls None (inr r) (inr info) None.
Proof.
  split.
  - engine_cases c; intros H; try discriminate. inversion H; subst. now eexists.
  - intros [info ->]. reflexivity.
Qed.

(** ** Sleeping *)

Lemma time_sleep_sleepable (secs : Z) :
  sleepable secs -> time_sleep secs = (Returned tt, [Sleep secs]).
Proof.
  unfold sleepable, time_sleep. intros H.
  assert (E1 : (secs <? - max_sleep) = false)
    by (apply Z.ltb_ge; unfold max_sleep in *; lia).
  assert (E2 : (max_sleep <? secs) = false) by (apply Z.ltb_ge; lia).
  assert (E3 : (secs <? 0) = false) by (apply Z.ltb_ge; lia).
  now rewrite E1, E2, E3.
Qed.

Lemma time_sleep_refused (secs : Z) :
  ~ sleepable secs -> exists e, time_sleep secs = (Raised e, []).
Proof.
  unfold sleepable, time_sleep. intros H.
  destruct ((secs <? - max_sleep) || (max_sleep <? secs)) eqn:E;
    [eexists; reflexivity|].
  apply orb_false_iff in E. destruct E as [E1 E2].
  apply Z.ltb_ge in E1, E2.
  destruct (Z.ltb_spec secs 0); [eexists; reflexivity | lia].
Qed.

Lemma sleepable_dec (secs : Z) : sleepable secs \/ ~ sleepable secs.
Proof. unfold sleepable. lia. Qed.

Lemma waits_fit_first (d k : Z) : waits_fit d k -> 0 < k -> sleepable d.
Proof.
  intros H Hk. specialize (H 0 ltac:(lia)). now rewrite Z.pow_0_r, Z.mul_1_r in H.
Qed.

Lemma waits_fit_next (d k : Z) : waits_fit d k -> waits_fit (d * 2) (k - 1).
Proof.
  intros H i Hi. specialize (H (i + 1) ltac:(lia)).
  rewrite Z.pow_add_r, Z.pow_1_r in H by lia.
  now replace (d * 2 * 2 ^ i) with (d * (2 ^ i * 2)) by ring.
Qed.

Lemma waits_fit_fewer (d k k' : Z) : waits_fit d k -> k' <= k -> waits_fit d k'.
Proof. intros H Hk i Hi. apply H. lia. Qed.

(** ** One iteration of the retry loop *)

Section Loop.

Variables (url : string) (n : Z) (engine : Z -> engine_calls).

Lemma retry_loop_returns (a : Z) (rest : list Z) (d : Z) (r : Result) :
  fst (try_body url (engine a)) = Returned r ->
  retry_loop url n engine (a :: rest) d
  = (Returned (PyObj r), snd (try_body url (engine a))).
Proof.
  simpl. destruct (try_body url (engine a)) as [[r'|e] t]; simpl; intros H;
    inversion H; subst. now rewrite app_nil_r.
Qed.

Lemma retry_loop_retries (a : Z) (rest : list Z) (d : Z) (err : Z -> exn) :
  fst (try_body url (engine a)) = Raised (err a) ->
  a < n - 1 -> sleepable d ->
  retry_loop url n engine (a :: rest) d
  = preceded_by (failed_round url engine err a d)
      (retry_loop url n engine rest (d * 2)).
Proof.
  intros H Ha Hd. unfold failed_round, preceded_by. cbn [retry_loop].
  unfold bind, attempt_of, emit.
  destruct (try_body url (engine a)) as [[r'|e] t]; cbn [fst snd] in *;
    inversion H; subst.
  destruct (Z.ltb_spec a (n - 1)) as [_|]; [|lia].
  rewrite (time_sleep_sleepable d Hd).
  destruct (retry_loop url n engine rest (d * 2)) as [o t']. cbn.
  now rewrite <- app_assoc.
Qed.

(** A failed attempt with attempts to come whose wait [time.sleep]
    refuses: the loop ends there, with the error of [time.sleep]. *)
Lemma retry_loop_sleep_refused (a : Z) (rest : list Z) (d : Z) (e : exn) :
  fst (try_body url (engine a)) = Raised e ->
  a < n - 1 -> ~ sleepable d ->
  exists e',
    time_sleep d = (Raised e', [])
    /\ retry_loop url n engine (a :: rest) d
       = (Raised e',
          snd (try_body url (engine a))
            ++ [Print (AttemptFailed (a + 1) url (exn_text e));
                Print (Waiting d)]).
Proof.
  intros H Ha Hd. destruct (time_sleep_refused d Hd) as [e' He'].
  exists e'. split; [exact He'|]. cbn [retry_loop].
  unfold bind, attempt_of, emit.
  destruct (try_body url (engine a)) as [[r'|e0] t]; cbn [fst snd] in *;
    inversion H; subst.
  destruct (Z.ltb_spec a (n - 1)) as [_|]; [|lia].
  rewrite He'. reflexivity.
Qed.

Lemma retry_loop_gives_up (a : Z) (rest : list Z) (d : Z) (e : exn) :
  fst (try_body url (engine a)) = Raised e ->
  n - 1 <= a ->
  retry_loop url n engine (a :: rest) d
  = (Raised e,
     snd (try_body url (engine a))
       ++ [Print (AttemptFailed (a + 1) url (exn_text e)); Print (GaveUp url n)]).
Proof.
  intros H Ha. simpl.
  destruct (try_body url (engine a)) as [[r'|e'] t]; simpl in *;
    inversion H; subst.
  destruct (Z.ltb_spec a (n - 1)) as [|_]; [lia|]. reflexivity.
Qed.

(** ** Runs of the retry loop *)

Lemma preceded_by_nil {A} (m : io A) : preceded_by [] m = m.
Proof. now destruct m. Qed.

Lemma preceded_by_app {A} (t1 t2 : trace) (m : io A) :
  preceded_by t1 (preceded_by t2 m) = preceded_by (t1 ++ t2) m.
Proof. unfold preceded_by. simpl. now rewrite app_assoc. Qed.

(** As long as attempts fail and attempts remain, the loop goes round. *)
Lemma retry_loop_fails_first (err : Z -> exn) (k : nat) :
  forall (s : nat) (d : Z) (rest : list Z),
  waits_fit d (Z.of_nat k) ->
  Z.of_nat s + Z.of_nat k < n ->
  (forall a, Z.of_nat s <= a < Z.of_nat s + Z.of_nat k ->
             fst (try_body url (engine a)) = Raised (err a)) ->
  retry_loop url n engine (map Z.of_nat (seq s k) ++ rest) d
  = preceded_by (failed_rounds url engine err k (Z.of_nat s) d)
      (retry_loop url n engine rest (d * 2 ^ Z.of_nat k)).
Proof.
  induction k as [|k IH]; intros s d rest Hd Hk Hfail.
  - cbn [seq map app failed_rounds]. rewrite preceded_by_nil.
    now rewrite Z.pow_0_r, Z.mul_1_r.
  - cbn [seq map app failed_rounds].
    rewrite (retry_loop_retries _ _ _ err);
      [| apply Hfail; lia | lia | apply (waits_fit_first d _ Hd); lia].
    rewrite IH;
      [| apply (waits_fit_fewer _ _ _ (waits_fit_next _ _ Hd)); lia
       | lia | intros a Ha; apply Hfail; lia].
    rewrite preceded_by_app.
    replace (Z.of_nat (S s)) with (Z.of_nat s + 1) by lia.
    replace (d * 2 * 2 ^ Z.of_nat k) with (d * 2 ^ Z.of_nat (S k)); [reflexivity|].
    rewrite Nat2Z.inj_succ, Z.pow_succ_r by lia. ring.
Qed.


Lemma failed_rounds_sleeps (err : Z -> exn) (k : nat) :
  forall a d, sleeps (failed_rounds url engine err k a d) = geometric d k.
Proof.
  induction k as [|k IH]; intros a d; [reflexivity|].
  cbn [failed_rounds]. unfold failed_round.
  rewrite !sleeps_app, try_body_sleeps, IH, geometric_S. reflexivity.
Qed.


(** [range(n)] cut before the attempt numbered [k]. *)
Lemma range_split (k : Z) :
  0 <= k < n ->
  range n = map Z.of_nat (seq 0 (Z.to_nat k))
              ++ k :: map Z.of_nat (seq (S (Z.to_nat k)) (Z.to_nat (n - k - 1))).
Proof.
  intros Hk. unfold range.
  replace (Z.to_nat n) with (Z.to_nat k + S (Z.to_nat (n - k - 1)))%nat by lia.
  rewrite seq_app, map_app. cbn [seq map Nat.add]. now rewrite Z2Nat.id by lia.
Qed.


(** The whole run when every attempt fails. *)
Lemma scrape_with_retry_all_fail (d : Z) (err : Z -> exn) :
  1 <= n -> waits_fit d (n - 1) ->
  (forall a, 0 <= a < n -> fst (try_body url (engine a)) = Raised (err a)) ->
  scrape_with_retry url n d engine
  = (Raised (err (n - 1)),
     failed_rounds url engine err (Z.to_nat (n - 1)) 0 d
       ++ snd (try_body url (engine (n - 1)))
       ++ [Print (AttemptFailed n url (exn_text (err (n - 1))));
           Print (GaveUp url n)]).
Proof.
  intros Hn Hd Hfail. unfold scrape_with_retry.
  rewrite (range_split (n - 1)) by lia.
  rewrite (retry_loop_fails_first err);
    [| apply (waits_fit_fewer _ _ _ Hd); lia | lia
     | intros a Ha; apply Hfail; lia].
  change (Z.of_nat 0) with 0.
  rewrite (retry_loop_gives_up _ _ _ (err (n - 1))) by (try apply Hfail; lia).
  unfold preceded_by. cbn [fst snd].
  replace (n - 1 + 1) with n by lia. reflexivity.
Qed.




(** An iteration begins by constructing a scraper. *)
Lemma retry_loop_cons_starts (a : Z) (rest : list Z) (d : Z) :
  exists t, snd (retry_loop url n engine (a :: rest) d) = NewScraper url :: t.
Proof.
  destruct (try_body_starts url (engine a)) as (t' & Ht' & _).
  cbn [retry_loop]. unfold bind, attempt_of.
  destruct (try_body url (engine a)) as [[r|e] t]; cbn [snd] in Ht'; subst t.
  - eexists. reflexivity.
  - match goal with |- context [let (_, _) := ?m in _] => destruct m as [o t''] end.
    eexists. reflexivity.
Qed.

(** Whatever the engine does, the loop writes no file and announces no
    category, and its waits, each of them announced, double from [d]; no
    wait follows an attempt numbered [n - 1] or more. *)
Lemma retry_loop_any (m : nat) :
  forall (s : nat) (d : Z),
  waits_fit d (n - 1 - Z.of_nat s) ->
  artifacts (snd (retry_loop url n engine (map Z.of_nat (seq s m)) d)) = []
  /\ started (snd (retry_loop url n engine (map Z.of_nat (seq s m)) d)) = []
  /\ exists k,
       Z.of_nat k <= Z.max 0 (n - 1 - Z.of_nat s)
       /\ announced_waits (snd (retry_loop url n engine (map Z.of_nat (seq s m)) d))
          = geometric d k
       /\ sleeps (snd (retry_loop url n engine (map Z.of_nat (seq s m)) d))
          = geometric d k.
Proof.
  induction m as [|m IH]; intros s d Hd; cbn [seq map].
  - repeat split. exists 0%nat. repeat split. cbn. lia.
  - destruct (fst (try_body url (engine (Z.of_nat s)))) as [r|e] eqn:Hb.
    + rewrite (retry_loop_returns _ _ _ r Hb). cbn [snd].
      rewrite try_body_artifacts, try_body_started, try_body_announced_waits,
        try_body_sleeps.
      repeat split. exists 0%nat. repeat split. cbn. lia.
    + destruct (Z.lt_ge_cases (Z.of_nat s) (n - 1)) as [Hlt|Hge].
      * rewrite (retry_loop_retries _ _ _ (fun _ => e));
          [| exact Hb | lia | apply (waits_fit_first d _ Hd); lia].
        unfold preceded_by, failed_round. cbn [snd].
        destruct (IH (S s) (d * 2)) as (Ha & Hs & k & Hk & Hw & Hsl);
          [apply (waits_fit_fewer _ _ _ (waits_fit_next _ _ Hd)); lia|].
        rewrite !artifacts_app, !started_app, !announced_waits_app, !sleeps_app.
        rewrite Ha, Hs, Hw, Hsl, try_body_artifacts, try_body_started,
          try_body_announced_waits, try_body_sleeps.
        repeat split. exists (S k). rewrite geometric_S. repeat split. lia.
      * rewrite (retry_loop_gives_up _ _ _ e Hb) by lia. cbn [snd].
        rewrite !artifacts_app, !started_app, !announced_waits_app, !sleeps_app.
        rewrite try_body_artifacts, try_body_started, try_body_announced_waits,
          try_body_sleeps.
        repeat split. exists 0%nat. repeat split. cbn. lia.
Qed.

(** A loop that runs up to attempt [n - 1] returns only what a [try] block
    returned: it does not fall off its end. *)
Lemma retry_loop_returned (v : pyval) (m : nat) :
  forall (s : nat) (d : Z),
  (1 <= m)%nat -> Z.of_nat s + Z.of_nat m = n ->
  fst (retry_loop url n engine (map Z.of_nat (seq s m)) d) = Returned v ->
  exists a r, Z.of_nat s <= a < n
              /\ fst (try_body url (engine a)) = Returned r /\ v = PyObj r.
Proof.
  induction m as [|m IH]; intros s d Hm Hn; [lia|]. cbn [seq map].
  destruct (fst (try_body url (engine (Z.of_nat s)))) as [r|e] eqn:Hb.
  - rewrite (retry_loop_returns _ _ _ r Hb). cbn [fst]. intros H.
    inversion H; subst. exists (Z.of_nat s), r. repeat split; auto; lia.
  - destruct (Z.lt_ge_cases (Z.of_nat s) (n - 1)) as [Hlt|Hge].
    + destruct (sleepable_dec d) as [Hd|Hd].
      * rewrite (retry_loop_retries _ _ _ (fun _ => e)) by (auto; lia).
        unfold preceded_by. cbn [fst]. intros H.
        destruct (IH (S s) (d * 2)) as (a & r & Ha & Hr & Hv); try lia; auto.
        exists a, r. repeat split; auto; lia.
      * destruct (retry_loop_sleep_refused _ (map Z.of_nat (seq (S s) m)) d e
                    Hb Hlt Hd) as (e' & _ & ->).
        discriminate.
    + rewrite (retry_loop_gives_up _ _ _ e Hb) by lia. discriminate.
Qed.

Lemma retry_loop_attempts_bound (m : nat) :
  forall (s : nat) (d : Z),
  (attempts (snd (retry_loop url n engine (map Z.of_nat (seq s m)) d)) <= m)%nat.
Proof.
  induction m as [|m IH]; intros s d; cbn [seq map]; [cbn; lia|].
  destruct (fst (try_body url (engine (Z.of_nat s)))) as [r|e] eqn:Hb.
  - rewrite (retry_loop_returns _ _ _ r Hb). cbn [snd].
    rewrite try_body_attempts. lia.
  - destruct (Z.lt_ge_cases (Z.of_nat s) (n - 1)) as [Hlt|Hge].
    + destruct (sleepable_dec d) as [Hd|Hd].
      * rewrite (retry_loop_retries _ _ _ (fun _ => e)) by (auto; lia).
        unfold preceded_by, failed_round. cbn [snd].
        rewrite !attempts_app, try_body_attempts.
        specialize (IH (S s) (d * 2)). cbn in *. lia.
      * destruct (retry_loop_sleep_refused _ (map Z.of_nat (seq (S s) m)) d e
                    Hb Hlt Hd) as (e' & _ & ->).
        cbn [snd]. rewrite !attempts_app, try_body_attempts. cbn. lia.
    + rewrite (retry_loop_gives_up _ _ _ e Hb) by lia. cbn [snd].
      rewrite !attempts_app, try_body_attempts. cbn. lia.
Qed.

End Loop.


(** ** One iteration of the main loop *)

Lemma loop_body_shape (c : item_calls) (category_url : string) :
  loop_body c category_url
  = (Returned tt, Print (Scraping category_url) :: item_events c category_url).
Proof.
  unfold loop_body, item_try, item_events, after_scrape, write_text.
  destruct (scrape_with_retry category_url default_max_retries default_delay
              (engine c)) as [[result|e] t]; cbn [fst snd].
  - destruct (on_open c) as [e|], (on_write c) as [[e' k]|];
      cbn -[output_name]; rewrite ?app_nil_r, <- ?app_assoc; reflexivity.
  - reflexivity.
Qed.

(** The two waits of a default run are durations [time.sleep] accepts. *)
Lemma default_waits_fit : waits_fit default_delay (default_max_retries - 1).
Proof.
  intros i Hi. unfold default_max_retries in Hi.
  assert (i = 0 \/ i = 1) as [-> | ->] by lia;
    unfold sleepable, default_delay, max_sleep; cbn; lia.
Qed.

(** The run of [scrape_with_retry] inside the loop body. *)
Lemma default_run_any (c : item_calls) (category_url : string) :
  let run := scrape_with_retry category_url default_max_retries default_delay
               (engine c) in
  artifacts (snd run) = [] /\ started (snd run) = []
  /\ exists k, (k <= 2)%nat
               /\ announced_waits (snd run) = geometric default_delay k
               /\ sleeps (snd run) = geometric default_delay k.
Proof.
  cbv zeta. unfold scrape_with_retry, range.
  destruct (retry_loop_any category_url default_max_retries (engine c)
              (Z.to_nat default_max_retries) 0 default_delay)
    as (Ha & Hs & k & Hk & Hw & Hsl);
    [apply (waits_fit_fewer _ _ _ default_waits_fit); cbn; lia|].
  repeat split; auto. exists k. repeat split; auto.
  unfold default_max_retries in Hk. lia.
Qed.

Lemma default_run_returned (c : item_calls) (category_url : string) (v : pyval) :
  fst (scrape_with_retry category_url default_max_retries default_delay (engine c))
  = Returned v ->
  exists a r, 0 <= a < default_max_retries
              /\ fst (try_body category_url (engine c a)) = Returned r
              /\ v = PyObj r.
Proof.
  unfold scrape_with_retry, range. intros H.
  apply (retry_loop_returned category_url default_max_retries (engine c) v
           (Z.to_nat default_max_retries) 0 default_delay) in H;
    unfold default_delay, default_max_retries in *; try lia.
  exact H.
Qed.

Lemma item_events_started (c : item_calls) (category_url : string) :
  started (item_events c category_url) = [].
Proof.
  unfold item_events.
  destruct (default_run_any c category_url) as (_ & Hs & _).
  rewrite started_app, Hs. unfold after_scrape.
  destruct (fst _) as [v|e]; [|reflexivity].
  destruct (on_open c), (on_write c) as [[? ?]|]; reflexivity.
Qed.

(** The one file of an item that does not fail, and none for one that does. *)
Lemma item_events_artifacts (c : item_calls) (category_url : string) :
  artifacts (item_events c category_url)
  = if fails_terminally c category_url then []
    else match fst (scrape_with_retry category_url default_max_retries
                      default_delay (engine c)) with
         | Returned v => [(output_name category_url (localtime c), py_str v)]
         | Raised _ => []
         end.
Proof.
  unfold item_events, fails_terminally.
  destruct (default_run_any c category_url) as (Ha & _).
  rewrite artifacts_app, Ha. unfold after_scrape.
  destruct (fst _) as [v|e]; [|reflexivity].
  destruct (on_open c), (on_write c) as [[? ?]|]; reflexivity.
Qed.

Lemma item_events_artifact (c : item_calls) (category_url : string) :
  artifacts (item_events c category_url)
  = if fails_terminally c category_url then []
    else [(output_name category_url (localtime c), item_content c category_url)].
Proof.
  rewrite item_events_artifacts. unfold fails_terminally, item_content.
  destruct (fst _) as [v|e]; reflexivity.
Qed.

(** The inter-item delay is slept at the end of an item that is saved, and
    only there. *)
Lemma item_events_sleeps (c : item_calls) (category_url : string) :
  sleeps (item_events c category_url)
  = sleeps (snd (scrape_with_retry category_url default_max_retries
                   default_delay (engine c)))
      ++ (if fails_terminally c category_url then [] else [5]).
Proof.
  unfold item_events, fails_terminally, after_scrape. rewrite sleeps_app.
  destruct (fst _) as [v|e]; [|reflexivity].
  destruct (on_open c), (on_write c) as [[? ?]|]; reflexivity.
Qed.

Lemma item_events_announced_waits (c : item_calls) (category_url : string) :
  announced_waits (item_events c category_url)
  = announced_waits (snd (scrape_with_retry category_url default_max_retries
                            default_delay (engine c))).
Proof.
  unfold item_events, after_scrape. rewrite announced_waits_app.
  destruct (fst _) as [v|e]; [|now rewrite app_nil_r].
  destruct (on_open c), (on_write c) as [[? ?]|]; now rewrite app_nil_r.
Qed.

(** The events of an item begin with the first attempt on it; there are at
    most three attempts. *)
Lemma item_events_attempts (c : item_calls) (category_url : string) :
  (exists rest, item_events c category_url = NewScraper category_url :: rest)
  /\ (attempts (item_events c category_url) <= 3)%nat.
Proof.
  unfold item_events, scrape_with_retry, range. split.
  - destruct (retry_loop_cons_starts category_url default_max_retries (engine c)
                0 [1; 2] default_delay) as [t Ht].
    change (map Z.of_nat (seq 0 (Z.to_nat default_max_retries))) with [0; 1; 2].
    rewrite Ht. eexists. reflexivity.
  - rewrite attempts_app.
    pose proof (retry_loop_attempts_bound category_url default_max_retries
                  (engine c) (Z.to_nat default_max_retries) 0 default_delay) as Hb.
    assert (Hz : attempts (after_scrape c category_url
                   (fst (retry_loop category_url default_max_retries (engine c)
                           (map Z.of_nat (seq 0 (Z.to_nat default_max_retries)))
                           default_delay))) = 0%nat).
    { unfold after_scrape. destruct (fst _); [|reflexivity].
      destruct (on_open c), (on_write c) as [[? ?]|]; reflexivity. }
    rewrite Hz. unfold default_delay, default_max_retries in *.
    change (Z.to_nat 3) with 3%nat in *. lia.
Qed.

(** ** The whole loop *)

Lemma main_loop_shape (world : nat -> item_calls) (items : list string) :
  forall pos,
  main_loop world pos items
  = (Returned tt,
     flat_map (fun ju => Print (Scraping (snd ju))
                           :: item_events (world (fst ju)) (snd ju))
       (indexed pos items)).
Proof.
  induction items as [|u rest IH]; intros pos; [reflexivity|].
  cbn [main_loop]. rewrite loop_body_shape, IH. reflexivity.
Qed.

Lemma until_next_item_app (t1 t2 : trace) :
  started t1 = [] -> until_next_item (t1 ++ t2) = t1 ++ until_next_item t2.
Proof.
  induction t1 as [|ev t1 IH]; intros H; [reflexivity|].
  destruct ev as [| |[]| | | |]; cbn in *; try discriminate; now rewrite IH.
Qed.

Lemma items_of_trace_app (t1 t2 : trace) :
  started t1 = [] -> items_of_trace (t1 ++ t2) = items_of_trace t2.
Proof.
  induction t1 as [|ev t1 IH]; intros H; [reflexivity|].
  destruct ev as [| |[]| | | |]; cbn in *; try discriminate; now rewrite IH.
Qed.

(** Cut at its "Scraping category" lines, the trace of the loop falls into
    the events of its items, one piece per item, in order. *)
Lemma items_of_main_loop (world : nat -> item_calls) (items : list string) :
  forall pos,
  items_of_trace (snd (main_loop world pos items))
  = map (fun ju => (snd ju, item_events (world (fst ju)) (snd ju)))
      (indexed pos items).
Proof.
  intros pos. rewrite main_loop_shape. cbn [snd]. unfold indexed.
  revert pos. induction items as [|u rest IH]; intros pos; [reflexivity|].
  cbn [List.length seq combine flat_map map fst snd app items_of_trace].
  rewrite until_next_item_app, items_of_trace_app, IH
    by apply item_events_started.
  do 2 f_equal. destruct rest; cbn; now rewrite app_nil_r.
Qed.

Lemma main_loop_artifacts (world : nat -> item_calls) (items : list string) :
  forall pos,
  artifacts (snd (main_loop world pos items))
  = map (fun ju => (output_name (snd ju) (localtime (world (fst ju))),
                    item_content (world (fst ju)) (snd ju)))
      (saved_items world pos items).
Proof.
  intros pos. rewrite main_loop_shape. cbn [snd]. unfold saved_items, indexed.
  revert pos. induction items as [|u rest IH]; intros pos; [reflexivity|].
  cbn [List.length seq combine flat_map filter fst snd].
  rewrite artifacts_app, IH.
  change (artifacts (Print (Scraping u) :: item_events (world pos) u))
    with (artifacts (item_events (world pos) u)).
  rewrite item_events_artifact.
  destruct (fails_terminally (world pos) u); reflexivity.
Qed.

Lemma indexed_items (items : list string) :
  forall pos, map snd (indexed pos items) = items.
Proof.
  unfold indexed. induction items as [|u rest IH]; intros pos; [reflexivity|].
  cbn. now rewrite IH.
Qed.

Lemma loop_body_artifacts (c : item_calls) (category_url : string) :
  fails_terminally c category_url = false ->
  artifacts (snd (loop_body c category_url))
  = [(output_name category_url (localtime c), item_content c category_url)].
Proof.
  intros Hok. rewrite loop_body_shape. cbn [snd].
  change (artifacts (Print (Scraping category_url) :: item_events c category_url))
    with (artifacts (item_events c category_url)).
  now rewrite item_events_artifact, Hok.
Qed.

(** The three categories of the script get three different file names,
    whatever the dates. *)
Lemma categories_output_names_distinct (d1 d2 d3 : struct_time) :
  NoDup [output_name "Cell Phones" d1; output_name "Tablets" d2;
         output_name "Computers" d3].
Proof.
  repeat constructor; cbn; intros H; repeat destruct H as [H|H];
    try discriminate H; try contradiction.
Qed.

(** ** The retry runner *)






(** ** The batch *)

(** C5.  Whatever fails, the loop over a batch ends without raising; cut
    at its "Scraping category" lines its trace has one piece per item, in
    the order of the batch, each beginning with the first attempt on that
    item and holding at most three attempts; and the files written are
    those of the items that do not fail terminally, one each, under the
    name derived for the item, so that their number is the number of such
    items. *)
Theorem batch_processes_every_item
    (world : nat -> item_calls) (items : list string) :
  fst (main_loop world 0 items) = Returned tt
  /\ map fst (items_of_trace (snd (main_loop world 0 items))) = items
  /\ Forall (fun piece =>
               (exists rest, snd piece = NewScraper (fst piece) :: rest)
               /\ (attempts (snd piece) <= 3)%nat)
       (items_of_trace (snd (main_loop world 0 items)))
  /\ map fst (artifacts (snd (main_loop world 0 items)))
     = map (fun ju => output_name (snd ju) (localtime (world (fst ju))))
         (saved_items world 0 items)
  /\ List.length (artifacts (snd (main_loop world 0 items)))
     = List.length (saved_items world 0 items).
Proof.
  rewrite items_of_main_loop, main_loop_artifacts, !map_map, !length_map.
  cbn [fst snd]. repeat split.
  - now rewrite main_loop_shape.
  - apply indexed_items.
  - apply Forall_forall. intros piece Hin. apply in_map_iff in Hin.
    destruct Hin as ([j u] & <- & _). cbn [fst snd].
    apply item_events_attempts.
Qed.

Lemma decimal_reads_back (y : Z) :
  1000 <= y <= 9999 -> number_of (decimal y) = y.
Proof.
  intros Hy.
  assert (H : forallb (fun y => number_of (decimal y) =? y)
                (upto (Z.to_nat 9000) 1000) = true) by (vm_compute; reflexivity).
  rewrite forallb_forall in H. apply Z.eqb_eq, H, in_upto. lia.
Qed.

Lemma two_digits_reads_back (m : Z) :
  0 <= m <= 99 -> number_of (two_digits m) = m.
Proof.
  intros Hm.
  assert (H : forallb (fun m => number_of (two_digits m) =? m)
                (upto (Z.to_nat 100) 0) = true) by (vm_compute; reflexivity).
  rewrite forallb_forall in H. apply Z.eqb_eq, H, in_upto. lia.
Qed.

(** C7.  The file of an item that is saved is named
    [mobilesentrix_<segment>_<YYYYMMDD>.json]: [segment] is what follows
    the last ['/'] of the category url, the whole url when it has none, and
    [YYYYMMDD] the eight digits of the local date: four that read as its
    year, two as its month, two as its day of the month. *)
Theorem saved_file_is_named_after_category_and_date
    (c : item_calls) (category_url : string) :
  valid_date (localtime c) ->
  fails_terminally c category_url = false ->
  exists segment ymd content,
    artifacts (snd (loop_body c category_url))
    = [(("mobilesentrix_" ++ segment ++ "_" ++ ymd ++ ".json")%string, content)]
    /\ segment = last_piece (split "/" category_url)
    /\ has_char "/" segment = false
    /\ (category_url = segment
        \/ exists before, category_url = (before ++ "/" ++ segment)%string)
    /\ (has_char "/" category_url = false -> segment = category_url)
    /\ ymd = strftime_Ymd (localtime c)
    /\ String.length ymd = 8%nat
    /\ all_digits ymd = true
    /\ exists yyyy mm dd,
         ymd = (yyyy ++ mm ++ dd)%string
         /\ String.length yyyy = 4%nat
         /\ String.length mm = 2%nat
         /\ String.length dd = 2%nat
         /\ number_of yyyy = tm_year (localtime c)
         /\ number_of mm = tm_mon (localtime c)
         /\ number_of dd = tm_mday (localtime c).
Proof.
  intros Hdate Hok.
  destruct (last_piece_split "/" category_url) as (Hfree & Hcut & Hwhole).
  destruct (strftime_Ymd_digits (localtime c) Hdate) as [Hlen Hdig].
  exists (last_piece (split "/" category_url)), (strftime_Ymd (localtime c)),
    (item_content c category_url).
  rewrite (loop_body_artifacts c category_url Hok).
  repeat split; auto.
  destruct Hdate as (Hy & Hm & Hd).
  pose proof (decimal_year (tm_year (localtime c)) Hy) as L1.
  pose proof (two_digits_number (tm_mon (localtime c)) ltac:(lia)) as L2.
  pose proof (two_digits_number (tm_mday (localtime c)) ltac:(lia)) as L3.
  unfold four_digit_number, two_digit_number in *.
  rewrite andb_true_iff, Nat.eqb_eq in L1, L2, L3.
  exists (decimal (tm_year (localtime c))), (two_digits (tm_mon (localtime c))),
    (two_digits (tm_mday (localtime c))).
  repeat split; try tauto.
  - now apply decimal_reads_back.
  - apply two_digits_reads_back. lia.
  - apply two_digits_reads_back. lia.
Qed.

(** C8.  What is written to the file of an item that is saved is
    [str(result)], character for character, where [result] is the object
    the call of [run()] returned on the attempt that completed; nothing
    else is written to it. *)
Theorem saved_content_is_the_str_of_the_result
    (c : item_calls) (category_url : string) :
  fails_terminally c category_url = false ->
  exists attempt r,
    0 <= attempt < 3
    /\ on_run (engine c attempt) = inr r
    /\ fst (scrape_with_retry category_url default_max_retries default_delay
              (engine c)) = Returned (PyObj r)
    /\ artifacts (snd (loop_body c category_url))
       = [(output_name category_url (localtime c), str_of_result r)].
Proof.
  intros Hok. rewrite (loop_body_artifacts c category_url Hok).
  unfold fails_terminally, item_content in *.
  destruct (fst (scrape_with_retry category_url default_max_retries
                   default_delay (engine c))) as [v|e] eqn:Hrun; [|discriminate].
  destruct (default_run_returned c category_url v Hrun) as (a & r & Ha & Hr & ->).
  exists a, r. apply try_body_returned in Hr. destruct Hr as [info Hr].
  rewrite Hr. repeat split; try apply Ha.
Qed.

(** C9.  In the trace of a batch, the waits announced and made for an item
    are [5], then [10], whatever happened on the items before it: the piece
    of every item holds the first [k <= 2] terms of [5, 10, 20, ...] as its
    announced waits, and sleeps them, followed at most by the delay of 5
    that ends a saved item. *)
Theorem backoff_restarts_for_every_item
    (world : nat -> item_calls) (items : list string) :
  map fst (items_of_trace (snd (main_loop world 0 items))) = items
  /\ Forall (fun piece =>
               exists k throttle,
                 (k <= 2)%nat
                 /\ announced_waits (snd piece) = geometric 5 k
                 /\ sleeps (snd piece) = geometric 5 k ++ throttle
                 /\ (throttle = [] \/ throttle = [5]))
       (items_of_trace (snd (main_loop world 0 items))).
Proof.
  rewrite items_of_main_loop, map_map. cbn [fst]. split.
  - apply indexed_items.
  - apply Forall_forall. intros piece Hin. apply in_map_iff in Hin.
    destruct Hin as ([j u] & <- & _). cbn [fst snd].
    destruct (default_run_any (world j) u) as (_ & _ & k & Hk & Hw & Hs).
    exists k, (if fails_terminally (world j) u then [] else [5]).
    rewrite item_events_announced_waits, item_events_sleeps, Hw, Hs.
    repeat split; auto.
    destruct (fails_terminally (world j) u); auto.
Qed.

(** ** Further properties of the retry runner *)

Lemma total_app (l1 l2 : list Z) : total (l1 ++ l2) = total l1 + total l2.
Proof.
  induction l1 as [|x l1 IH]; [reflexivity|].
  change (total ((x :: l1) ++ l2)) with (x + total (l1 ++ l2)).
  change (total (x :: l1)) with (x + total l1). rewrite IH. ring.
Qed.

Lemma total_geometric (k : nat) :
  forall d, total (geometric d k) = d * (2 ^ Z.of_nat k - 1).
Proof.
  induction k as [|k IH]; intros d; [cbn; ring|].
  rewrite geometric_S.
  change (total (d :: geometric (d * 2) k)) with (d + total (geometric (d * 2) k)).
  rewrite IH, Nat2Z.inj_succ, Z.pow_succ_r by lia. ring.
Qed.

Lemma total_geometric_mono (d : Z) (k K : nat) :
  0 <= d -> (k <= K)%nat -> total (geometric d k) <= total (geometric d K).
Proof.
  intros Hd Hk. rewrite !total_geometric.
  apply Z.mul_le_mono_nonneg_l; [exact Hd|].
  assert (2 ^ Z.of_nat k <= 2 ^ Z.of_nat K) by (apply Z.pow_le_mono_r; lia).
  lia.
Qed.

Lemma try_body_runner_events (url : string) (c : engine_calls) :
  forallb runner_event (snd (try_body url c)) = true.
Proof. engine_cases c; reflexivity. Qed.


Section Runs.

Variables (url : string) (n : Z) (engine : Z -> engine_calls).

(** Whatever the engine and the delay, the loop leaves only events of its
    own lines. *)
Lemma retry_loop_runner_events (l : list Z) :
  forall d, forallb runner_event (snd (retry_loop url n engine l d)) = true.
Proof.
  induction l as [|a l IH]; intros d; [reflexivity|].
  pose proof (try_body_runner_events url (engine a)) as Hb.
  destruct (fst (try_body url (engine a))) as [r|e] eqn:Hbody.
  - now rewrite (retry_loop_returns _ _ _ _ _ _ r Hbody).
  - destruct (Z.lt_ge_cases a (n - 1)) as [Hlt|Hge].
    + destruct (sleepable_dec d) as [Hd|Hd].
      * rewrite (retry_loop_retries _ _ _ _ _ _ (fun _ => e)) by auto.
        unfold preceded_by, failed_round. cbn [snd].
        rewrite !forallb_app, Hb, IH. reflexivity.
      * destruct (retry_loop_sleep_refused _ _ _ _ l d e Hbody Hlt Hd)
          as (e' & _ & ->).
        cbn [snd]. rewrite forallb_app, Hb. reflexivity.
    + rewrite (retry_loop_gives_up _ _ _ _ _ _ e Hbody) by lia. cbn [snd].
      rewrite forallb_app, Hb. reflexivity.
Qed.

(** Whatever the engine and the delay, the sleeps made are the first terms
    of the doubling sequence: a sleep that is refused ends the run. *)
Lemma retry_loop_sleeps_prefix (m : nat) :
  forall (s : nat) (d : Z),
  exists k,
    Z.of_nat k <= Z.max 0 (n - 1 - Z.of_nat s)
    /\ sleeps (snd (retry_loop url n engine (map Z.of_nat (seq s m)) d))
       = geometric d k.
Proof.
  induction m as [|m IH]; intros s d; cbn [seq map].
  - exists 0%nat. split; [cbn; lia | reflexivity].
  - destruct (fst (try_body url (engine (Z.of_nat s)))) as [r|e] eqn:Hb.
    + rewrite (retry_loop_returns _ _ _ _ _ _ r Hb). cbn [snd].
      rewrite try_body_sleeps. exists 0%nat. split; [cbn; lia | reflexivity].
    + destruct (Z.lt_ge_cases (Z.of_nat s) (n - 1)) as [Hlt|Hge].
      * destruct (sleepable_dec d) as [Hd|Hd].
        -- rewrite (retry_loop_retries _ _ _ _ _ _ (fun _ => e)) by auto.
           unfold preceded_by, failed_round. cbn [snd].
           destruct (IH (S s) (d * 2)) as (k & Hk & Hsl).
           rewrite !sleeps_app, Hsl, try_body_sleeps.
           exists (S k). rewrite geometric_S. split; [lia | reflexivity].
        -- destruct (retry_loop_sleep_refused _ _ _ _
                       (map Z.of_nat (seq (S s) m)) d e Hb Hlt Hd)
             as (e' & _ & ->).
           cbn [snd]. rewrite sleeps_app, try_body_sleeps.
           exists 0%nat. split; [cbn; lia | reflexivity].
      * rewrite (retry_loop_gives_up _ _ _ _ _ _ e Hb) by lia. cbn [snd].
        rewrite sleeps_app, try_body_sleeps.
        exists 0%nat. split; [cbn; lia | reflexivity].
Qed.

(** Whatever the delay, a loop that runs up to attempt [n - 1] and returns
    has returned from the [try] block of the last attempt it made, all the
    attempts before having raised. *)
Lemma retry_loop_returned_from (v : pyval) (m : nat) :
  forall (s : nat) (d : Z),
  (1 <= m)%nat -> Z.of_nat s + Z.of_nat m = n ->
  fst (retry_loop url n engine (map Z.of_nat (seq s m)) d) = Returned v ->
  exists k r,
    Z.of_nat s < k <= n
    /\ v = PyObj r
    /\ fst (try_body url (engine (k - 1))) = Returned r
    /\ attempts (snd (retry_loop url n engine (map Z.of_nat (seq s m)) d))
       = Z.to_nat (k - Z.of_nat s)
    /\ forall a, Z.of_nat s <= a < k - 1 ->
                 exists e, fst (try_body url (engine a)) = Raised e.
Proof.
  induction m as [|m IH]; intros s d Hm Hn; [lia|]. cbn [seq map].
  destruct (fst (try_body url (engine (Z.of_nat s)))) as [r|e] eqn:Hb.
  - rewrite (retry_loop_returns _ _ _ _ _ _ r Hb). cbn [fst snd]. intros H.
    inversion H; subst. exists (Z.of_nat s + 1), r.
    replace (Z.of_nat s + 1 - 1) with (Z.of_nat s) by lia.
    rewrite try_body_attempts. repeat split; auto; lia.
  - destruct (Z.lt_ge_cases (Z.of_nat s) (n - 1)) as [Hlt|Hge].
    + destruct (sleepable_dec d) as [Hd|Hd].
      * rewrite (retry_loop_retries _ _ _ _ _ _ (fun _ => e)) by auto.
        unfold preceded_by, failed_round. cbn [fst snd]. intros H.
        destruct (IH (S s) (d * 2)) as (k & r & Hk & Hv & Hr & Hatt & Hbefore);
          try lia; auto.
        exists k, r. repeat split; auto; try lia.
        -- rewrite !attempts_app, try_body_attempts, Hatt. cbn. lia.
        -- intros a Ha. destruct (Z.eq_dec a (Z.of_nat s)) as [->|Hne].
           ++ now exists e.
           ++ apply Hbefore. lia.
      * destruct (retry_loop_sleep_refused _ _ _ _
                    (map Z.of_nat (seq (S s) m)) d e Hb Hlt Hd)
          as (e' & _ & ->).
        discriminate.
    + rewrite (retry_loop_gives_up _ _ _ _ _ _ e Hb) by lia. discriminate.
Qed.




End Runs.

(** X1.  With [max_retries <= 0] the loop body never runs: the function
    returns [None] and has made no attempt, printed nothing and not slept,
    whatever the engine. *)
Theorem scrape_with_retry_without_attempts
    (url : string) (n delay : Z) (engine : Z -> engine_calls) :
  n <= 0 ->
  scrape_with_retry url n delay engine = (Returned PyNone, []).
Proof.
  intros Hn. unfold scrape_with_retry, range.
  replace (Z.to_nat n) with 0%nat by lia. reflexivity.
Qed.

(** X2.  With [max_retries >= 1], whatever the delay, what
    [scrape_with_retry] returns is the object [run()] returned on the last
    attempt made, attempt [k]; every attempt before it raised.  It is not
    the [None] of a loop that ran out. *)
Theorem scrape_with_retry_returns_a_run_result
    (url : string) (n delay : Z) (engine : Z -> engine_calls) (v : pyval) :
  1 <= n ->
  fst (scrape_with_retry url n delay engine) = Returned v ->
  exists k r,
    1 <= k <= n
    /\ v = PyObj r
    /\ on_run (engine (k - 1)) = inr r
    /\ attempts (snd (scrape_with_retry url n delay engine)) = Z.to_nat k
    /\ forall a, 0 <= a < k - 1 ->
                 exists e, fst (try_body url (engine a)) = Raised e.
Proof.
  intros Hn Hret. unfold scrape_with_retry, range in *.
  destruct (retry_loop_returned_from url n engine v (Z.to_nat n) 0 delay
              ltac:(lia) ltac:(lia) Hret)
    as (k & r & Hk & Hv & Hr & Hatt & Hbefore).
  change (Z.of_nat 0) with 0 in *. rewrite Z.sub_0_r in Hatt.
  exists k, r. repeat split; auto; try lia.
  apply try_body_returned in Hr. destruct Hr as [info ->]. reflexivity.
Qed.



(** X5.  Whatever the engine does, the sleeps of a run are the first [k]
    terms of [delay, delay*2, delay*4, ...] for some [k <= n - 1]; the time
    slept is [delay * (2^k - 1)], at most [delay * (2^(n-1) - 1)]. *)
Theorem scrape_with_retry_total_wait
    (url : string) (n delay : Z) (engine : Z -> engine_calls) :
  1 <= n -> 0 <= delay ->
  exists k,
    (k <= Z.to_nat (n - 1))%nat
    /\ sleeps (snd (scrape_with_retry url n delay engine)) = geometric delay k
    /\ total (sleeps (snd (scrape_with_retry url n delay engine)))
       = delay * (2 ^ Z.of_nat k - 1)
    /\ total (sleeps (snd (scrape_with_retry url n delay engine)))
       <= delay * (2 ^ (n - 1) - 1).
Proof.
  intros Hn Hd. unfold scrape_with_retry, range.
  destruct (retry_loop_sleeps_prefix url n engine (Z.to_nat n) 0 delay)
    as (k & Hk & ->).
  exists k. repeat split; auto.
  - cbn in Hk. lia.
  - apply total_geometric.
  - replace (n - 1) with (Z.of_nat (Z.to_nat (n - 1))) by lia.
    rewrite <- (total_geometric (Z.to_nat (n - 1))).
    apply total_geometric_mono; [exact Hd | cbn in Hk; lia].
Qed.


(** ** Further properties of the main loop *)

Lemma saved_lines_app (t1 t2 : trace) :
  saved_lines (t1 ++ t2) = saved_lines t1 ++ saved_lines t2.
Proof. apply flat_map_app. Qed.

Lemma error_lines_app (t1 t2 : trace) :
  error_lines (t1 ++ t2) = error_lines t1 ++ error_lines t2.
Proof. apply flat_map_app. Qed.

Lemma files_after_app (t1 t2 : trace) (fs : files) :
  files_after (t1 ++ t2) fs = files_after t2 (files_after t1 fs).
Proof. apply fold_left_app. Qed.

(** Events of the runner's own lines are no closing lines of an item and
    leave the files alone. *)
Lemma runner_events_quiet (t : trace) :
  forallb runner_event t = true ->
  saved_lines t = [] /\ error_lines t = []
  /\ forall fs, files_after t fs = fs.
Proof.
  induction t as [|ev t IH]; intros H; [repeat split|].
  cbn [forallb] in H. apply andb_true_iff in H. destruct H as [Hev Ht].
  destruct (IH Ht) as (Hs & He & Hf).
  destruct ev as [| |[]| | | |]; try discriminate; cbn; repeat split; auto.
Qed.

Lemma default_run_quiet (c : item_calls) (category_url : string) :
  let t := snd (scrape_with_retry category_url default_max_retries default_delay
                  (engine c)) in
  saved_lines t = [] /\ error_lines t = [] /\ forall fs, files_after t fs = fs.
Proof.
  cbv zeta. apply runner_events_quiet. unfold scrape_with_retry.
  apply retry_loop_runner_events.
Qed.

(** What the closing line of an item's "Error scraping" says. *)
Lemma item_events_error_lines (c : item_calls) (category_url : string) :
  error_lines (item_events c category_url)
  = match fst (scrape_with_retry category_url default_max_retries default_delay
                 (engine c)) with
    | Raised e => [(category_url, exn_text e)]
    | Returned _ =>
        match on_open c, on_write c with
        | Some e, _ => [(category_url, exn_text e)]
        | None, Some (e, _) => [(category_url, exn_text e)]
        | None, None => []
        end
    end.
Proof.
  unfold item_events. destruct (default_run_quiet c category_url) as (_ & He & _).
  rewrite error_lines_app, He. unfold after_scrape.
  destruct (fst _) as [v|e]; [|reflexivity].
  destruct (on_open c), (on_write c) as [[? ?]|]; reflexivity.
Qed.

Lemma item_events_error_urls (c : item_calls) (category_url : string) :
  map fst (error_lines (item_events c category_url))
  = if fails_terminally c category_url then [category_url] else [].
Proof.
  rewrite item_events_error_lines. unfold fails_terminally.
  destruct (fst _) as [v|e]; [|reflexivity].
  destruct (on_open c), (on_write c) as [[? ?]|]; reflexivity.
Qed.

Lemma item_events_saved_lines (c : item_calls) (category_url : string) :
  saved_lines (item_events c category_url)
  = if fails_terminally c category_url then []
    else [output_name category_url (localtime c)].
Proof.
  unfold item_events, fails_terminally.
  destruct (default_run_quiet c category_url) as (Hs & _ & _).
  rewrite saved_lines_app, Hs. unfold after_scrape.
  destruct (fst _) as [v|e]; [|reflexivity].
  destruct (on_open c), (on_write c) as [[? ?]|]; reflexivity.
Qed.

(** The files after an item are those after what follows its scrape. *)
Lemma item_events_files (c : item_calls) (category_url : string) (fs : files) :
  files_after (snd (loop_body c category_url)) fs
  = files_after
      (after_scrape c category_url
         (fst (scrape_with_retry category_url default_max_retries default_delay
                 (engine c)))) fs.
Proof.
  rewrite loop_body_shape. cbn [snd]. unfold item_events.
  destruct (default_run_quiet c category_url) as (_ & _ & Hf).
  change (files_after (Print (Scraping category_url) :: ?t) fs)
    with (files_after t fs).
  now rewrite files_after_app, Hf.
Qed.

Lemma main_loop_cons (world : nat -> item_calls) (pos : nat)
    (u : string) (rest : list string) :
  main_loop world pos (u :: rest)
  = preceded_by (Print (Scraping u) :: item_events (world pos) u)
      (main_loop world (S pos) rest).
Proof. now rewrite !main_loop_shape. Qed.

Lemma flat_map_select {A B} (p : A -> bool) (g : A -> B) (l : list A) :
  flat_map (fun x => if p x then [] else [g x]) l
  = map g (filter (fun x => negb (p x)) l).
Proof.
  induction l as [|x l IH]; [reflexivity|]. cbn.
  destruct (p x); cbn; now rewrite IH.
Qed.

Lemma flat_map_reject {A B} (p : A -> bool) (g : A -> B) (l : list A) :
  flat_map (fun x => if p x then [g x] else []) l = map g (filter p l).
Proof.
  induction l as [|x l IH]; [reflexivity|]. cbn.
  destruct (p x); cbn; now rewrite IH.
Qed.

Lemma main_loop_saved_lines (world : nat -> item_calls) (items : list string) :
  forall pos,
  saved_lines (snd (main_loop world pos items))
  = map (fun ju => output_name (snd ju) (localtime (world (fst ju))))
      (saved_items world pos items).
Proof.
  intros pos. unfold saved_items.
  rewrite <- (flat_map_select
                (fun ju => fails_terminally (world (fst ju)) (snd ju))).
  revert pos. induction items as [|u rest IH]; intros pos; [reflexivity|].
  rewrite main_loop_cons. unfold preceded_by, indexed. cbn [snd].
  change (saved_lines ((Print (Scraping u) :: ?t) ++ ?t'))
    with (saved_lines (t ++ t')).
  rewrite saved_lines_app, item_events_saved_lines, IH. reflexivity.
Qed.

Lemma main_loop_error_urls (world : nat -> item_calls) (items : list string) :
  forall pos,
  map fst (error_lines (snd (main_loop world pos items)))
  = map snd (failed_items world pos items).
Proof.
  intros pos. unfold failed_items. rewrite <- flat_map_reject.
  revert pos. induction items as [|u rest IH]; intros pos; [reflexivity|].
  rewrite main_loop_cons. unfold preceded_by, indexed. cbn [snd].
  change (error_lines ((Print (Scraping u) :: ?t) ++ ?t'))
    with (error_lines (t ++ t')).
  rewrite error_lines_app, map_app, item_events_error_urls, IH. reflexivity.
Qed.

(** X7.  The closing lines of a batch tell what happened to each item: a
    "Results saved to" line for each file written, with its name, in order,
    and an "Error scraping" line for each item that failed terminally, with
    its category, in order; no item has both and none has neither. *)
Theorem batch_reports_every_item
    (world : nat -> item_calls) (items : list string) :
  saved_lines (snd (main_loop world 0 items))
  = map fst (artifacts (snd (main_loop world 0 items)))
  /\ map fst (error_lines (snd (main_loop world 0 items)))
     = map snd (failed_items world 0 items)
  /\ (List.length (saved_lines (snd (main_loop world 0 items)))
      + List.length (error_lines (snd (main_loop world 0 items))))%nat
     = List.length items.
Proof.
  pose proof (main_loop_saved_lines world items) as Hs.
  pose proof (main_loop_error_urls world items) as He.
  repeat split.
  - rewrite Hs, main_loop_artifacts, map_map. reflexivity.
  - apply He.
  - rewrite <- (length_map fst (error_lines _)), Hs, He, !length_map.
    unfold saved_items, failed_items.
    rewrite <- (indexed_items items 0) at 3. rewrite length_map.
    generalize (indexed 0 items). intros l.
    induction l as [|x l IH]; [reflexivity|]. cbn.
    destruct (fails_terminally (world (fst x)) (snd x)); cbn; lia.
Qed.

(** X8.  The log of an item on which all three attempts raise: the three
    failure lines with their attempt numbers and error texts, the waits of 5
    and 10 between them, "Failed to scrape ... after 3 attempts", and the
    closing "Error scraping" line with the text of the third error; 15
    seconds are slept and no file is touched. *)
Theorem exhausted_item_log
    (c : item_calls) (category_url : string) (err : Z -> exn) :
  (forall a, 0 <= a < 3 ->
             fst (try_body category_url (engine c a)) = Raised (err a)) ->
  printed (snd (loop_body c category_url))
  = [Scraping category_url;
     AttemptFailed 1 category_url (exn_text (err 0)); Waiting 5;
     AttemptFailed 2 category_url (exn_text (err 1)); Waiting 10;
     AttemptFailed 3 category_url (exn_text (err 2));
     GaveUp category_url 3;
     ErrorScraping category_url (exn_text (err 2))]
  /\ sleeps (snd (loop_body c category_url)) = [5; 10]
  /\ forall fs, files_after (snd (loop_body c category_url)) fs = fs.
Proof.
  intros Hfail.
  assert (Hrun := scrape_with_retry_all_fail category_url 3 (engine c) 5 err
                    ltac:(lia) default_waits_fit Hfail).
  repeat split.
  - rewrite loop_body_shape. cbn [snd]. unfold item_events.
    unfold default_max_retries, default_delay. rewrite Hrun.
    cbn [fst snd after_scrape].
    change (Z.to_nat (3 - 1)) with 2%nat. change (3 - 1) with 2.
    cbn [failed_rounds]. unfold failed_round.
    change (0 + 1 + 1) with 2. change (0 + 1) with 1. change (1 + 1) with 2.
    change (5 * 2) with 10.
    change (printed (Print (Scraping category_url) :: ?t))
      with (Scraping category_url :: printed t).
    rewrite !printed_app.
    rewrite (try_body_raised_printed _ _ (err 0)) by (apply Hfail; lia).
    rewrite (try_body_raised_printed _ _ (err 1)) by (apply Hfail; lia).
    rewrite (try_body_raised_printed _ _ (err 2)) by (apply Hfail; lia).
    reflexivity.
  - rewrite loop_body_shape. cbn [snd].
    change (sleeps (Print (Scraping category_url) :: ?t)) with (sleeps t).
    rewrite item_events_sleeps. unfold fails_terminally.
    unfold default_max_retries, default_delay. rewrite Hrun. cbn [fst snd].
    rewrite !sleeps_app, failed_rounds_sleeps, try_body_sleeps. reflexivity.
  - intros fs. rewrite item_events_files.
    unfold default_max_retries, default_delay. rewrite Hrun. reflexivity.
Qed.

(** X9.  When an item is saved, its file holds [str(result)] and nothing
    else, whatever it held before: the file is replaced, not appended to. *)
Theorem saved_item_replaces_its_file
    (c : item_calls) (category_url : string) (v : pyval) (fs : files) :
  fst (scrape_with_retry category_url default_max_retries default_delay (engine c))
  = Returned v ->
  on_open c = None -> on_write c = None ->
  files_after (snd (loop_body c category_url)) fs
    (output_name category_url (localtime c))
  = Some (py_str v).
Proof.
  intros Hrun Hopen Hwrite. rewrite item_events_files, Hrun.
  unfold after_scrape. rewrite Hopen, Hwrite.
  unfold files_after, file_effect, set_file. cbn [fold_left].
  now rewrite !String.eqb_refl.
Qed.

Lemma loop_body_files_frame (c : item_calls) (category_url : string)
    (fs : files) (name : string) :
  name <> output_name category_url (localtime c) ->
  files_after (snd (loop_body c category_url)) fs name = fs name.
Proof.
  intros Hname. apply String.eqb_neq in Hname.
  rewrite item_events_files. unfold after_scrape.
  destruct (fst _) as [v|e]; [|reflexivity].
  destruct (on_open c), (on_write c) as [[? ?]|]; try reflexivity;
    unfold files_after, file_effect, set_file; cbn [fold_left];
    now rewrite ?Hname.
Qed.

(** X10.  A batch touches no file but those named after its items: a file
    whose name is not the output name of any item, at its date, is after
    the batch as it was before. *)
Theorem batch_touches_only_its_files
    (world : nat -> item_calls) (items : list string) (fs : files) (name : string) :
  Forall (fun ju => name <> output_name (snd ju) (localtime (world (fst ju))))
    (indexed 0 items) ->
  files_after (snd (main_loop world 0 items)) fs name = fs name.
Proof.
  generalize 0%nat as pos. revert fs.
  induction items as [|u rest IH]; intros fs pos Hall; [reflexivity|].
  unfold indexed in Hall. cbn [List.length seq combine] in Hall.
  inversion Hall as [|? ? Hu Hrest]; subst. cbn [fst snd] in Hu.
  rewrite main_loop_cons. unfold preceded_by. cbn [snd].
  rewrite files_after_app, (IH _ (S pos) Hrest).
  pose proof (loop_body_files_frame (world pos) u fs name Hu) as Hframe.
  rewrite loop_body_shape in Hframe. exact Hframe.
Qed.

Lemma substring_prefix (k : nat) :
  forall s, exists rest, s = (substring 0 k s ++ rest)%string.
Proof.
  induction k as [|k IH]; intros s.
  - exists s. destruct s; reflexivity.
  - destruct s as [|c s]; [exists EmptyString; reflexivity|].
    destruct (IH s) as [rest Hrest]. exists rest. cbn. now rewrite <- Hrest.
Qed.

(** X11.  When the scrape returns and [open] succeeds but the write raises
    after some of the content has reached the file, the item fails with the
    error of the write and its file holds that beginning of [str(result)]
    and nothing of what it held before; no "saved" line is printed, no
    artifact is counted and the delay of 5 is not slept. *)
Theorem failed_write_leaves_a_prefix
    (c : item_calls) (category_url : string) (v : pyval) (e : exn) (k : nat)
    (fs : files) :
  fst (scrape_with_retry category_url default_max_retries default_delay (engine c))
  = Returned v ->
  on_open c = None -> on_write c = Some (e, k) ->
  files_after (snd (loop_body c category_url)) fs
    (output_name category_url (localtime c))
  = Some (substring 0 k (py_str v))
  /\ (exists rest, py_str v = (substring 0 k (py_str v) ++ rest)%string)
  /\ artifacts (snd (loop_body c category_url)) = []
  /\ saved_lines (snd (loop_body c category_url)) = []
  /\ error_lines (snd (loop_body c category_url))
     = [(category_url, exn_text e)]
  /\ sleeps (snd (loop_body c category_url))
     = sleeps (snd (scrape_with_retry category_url default_max_retries
                      default_delay (engine c))).
Proof.
  intros Hrun Hopen Hwrite.
  assert (Hfails : fails_terminally c category_url = true)
    by (unfold fails_terminally; now rewrite Hrun, Hopen, Hwrite).
  split.
  { rewrite item_events_files, Hrun. unfold after_scrape.
    rewrite Hopen, Hwrite.
    unfold files_after, file_effect, set_file. cbn [fold_left].
    now rewrite !String.eqb_refl. }
  split; [apply substring_prefix|].
  rewrite loop_body_shape. cbn [snd].
  change (artifacts (Print (Scraping category_url) :: ?t)) with (artifacts t).
  change (saved_lines (Print (Scraping category_url) :: ?t)) with (saved_lines t).
  change (error_lines (Print (Scraping category_url) :: ?t)) with (error_lines t).
  change (sleeps (Print (Scraping category_url) :: ?t)) with (sleeps t).
  rewrite item_events_artifact, item_events_saved_lines, item_events_error_lines,
    item_events_sleeps, Hfails, Hrun, Hopen, Hwrite, app_nil_r.
  repeat split.
Qed.

(** X12.  When the retries of an item are exhausted, or its scrape returns
    and [open] raises, every file is after the item as it was before, and
    the closing line names the category with the text of that error. *)
Theorem failure_before_open_leaves_the_files
    (c : item_calls) (category_url : string) (e : exn) :
  fst (scrape_with_retry category_url default_max_retries default_delay (engine c))
  = Raised e
  \/ (exists v,
        fst (scrape_with_retry category_url default_max_retries default_delay
               (engine c)) = Returned v
        /\ on_open c = Some e) ->
  (forall fs, files_after (snd (loop_body c category_url)) fs = fs)
  /\ error_lines (snd (loop_body c category_url)) = [(category_url, exn_text e)].
Proof.
  intros H. split.
  - intros fs. rewrite item_events_files. unfold after_scrape.
    destruct H as [-> | (v & -> & ->)]; reflexivity.
  - rewrite loop_body_shape. cbn [snd].
    change (error_lines (Print (Scraping category_url) :: ?t)) with (error_lines t).
    rewrite item_events_error_lines.
    destruct H as [-> | (v & -> & ->)]; reflexivity.
Qed.

(** X13.  A batch in two parts: the loop over [first ++ second] leaves the
    trace of the loop over [first] followed by that of the loop over
    [second], run where the first ended. *)
Theorem main_loop_app
    (world : nat -> item_calls) (first second : list string) :
  main_loop world 0 (first ++ second)
  = preceded_by (snd (main_loop world 0 first))
      (main_loop world (List.length first) second).
Proof.
  change (List.length first) with (0 + List.length first)%nat.
  generalize 0%nat as pos.
  induction first as [|u rest IH]; intros pos.
  - cbn [app List.length main_loop ret snd]. rewrite Nat.add_0_r.
    now rewrite preceded_by_nil.
  - cbn [app List.length]. rewrite !main_loop_cons, IH.
    rewrite preceded_by_app. unfold preceded_by at 3. cbn [snd].
    now rewrite Nat.add_succ_r.
Qed.

(** X14.  A batch sleeps at most 20 seconds per item (15 between the three
    attempts and 5 after saving), whatever the engine and the file system
    do. *)
Theorem batch_total_sleep_bound
    (world : nat -> item_calls) (items : list string) :
  0 <= total (sleeps (snd (main_loop world 0 items)))
       <= 20 * Z.of_nat (List.length items).
Proof.
  generalize 0%nat as pos.
  induction items as [|u rest IH]; intros pos; [cbn; lia|].
  rewrite main_loop_cons. unfold preceded_by. cbn [snd].
  change (sleeps ((Print (Scraping u) :: ?t) ++ ?t')) with (sleeps (t ++ t')).
  rewrite sleeps_app, total_app, item_events_sleeps, total_app.
  destruct (default_run_any (world pos) u) as (_ & _ & k & Hk & _ & ->).
  specialize (IH (S pos)).
  assert (Hrun : 0 <= total (geometric default_delay k) <= 15).
  { unfold default_delay. rewrite total_geometric.
    assert (k = 0 \/ k = 1 \/ k = 2)%nat as [-> | [-> | ->]] by lia; cbn; lia. }
  assert (Hthrottle : 0 <= total (if fails_terminally (world pos) u
                                  then [] else [5]) <= 5)
    by (destruct (fails_terminally (world pos) u); cbn; lia).
  cbn [List.length]. lia.
Qed.

(** ** Further properties of the file names *)

Lemma split_append (sep : ascii) (a b : string) :
  split sep (a ++ String sep b) = split sep a ++ split sep b.
Proof.
  induction a as [|c a IH]; cbn [append split].
  - now rewrite Ascii.eqb_refl.
  - rewrite IH. pose proof (split_nonempty sep a) as Hne.
    destruct (Ascii.eqb c sep); [reflexivity|].
    destruct (split sep a) as [|w ws]; [contradiction | reflexivity].
Qed.

Lemma split_without (sep : ascii) (s : string) :
  has_char sep s = false -> split sep s = [s].
Proof.
  induction s as [|c s IH]; [reflexivity|]. cbn [has_char split].
  intros H. apply orb_false_iff in H. destruct H as [Hc Hs].
  now rewrite Hc, (IH Hs).
Qed.

(** X16.  The name taken from a category url that has a ['/'] is exactly
    what follows its last ['/']: for every piece [segment] without ['/'],
    [category_name (before ++ "/" ++ segment) = segment].  A url that ends
    in ['/'] gives the empty name. *)
Theorem category_name_of_path (before segment : string) :
  has_char "/" segment = false ->
  category_name (before ++ "/" ++ segment) = segment.
Proof.
  intros Hfree. unfold category_name, last_piece.
  change (before ++ "/" ++ segment)%string
    with (before ++ String "/" segment)%string.
  rewrite split_append, (split_without "/" segment Hfree).
  apply last_last.
Qed.

Lemma append_suffix_inj (a : string) :
  forall a' s s',
  String.length s = String.length s' ->
  (a ++ s)%string = (a' ++ s')%string -> a = a' /\ s = s'.
Proof.
  induction a as [|c a IH]; intros [|c' a'] s s' Hlen Heq; cbn in Heq.
  - auto.
  - subst s. cbn in Hlen. rewrite length_append in Hlen. lia.
  - subst s'. cbn in Hlen. rewrite length_append in Hlen. lia.
  - injection Heq as -> Heq. destruct (IH a' s s' Hlen Heq) as [-> ->]. auto.
Qed.

Lemma decimal_inj (y y' : Z) : 0 <= y -> 0 <= y' -> decimal y = decimal y' -> y = y'.
Proof.
  unfold decimal. intros Hy Hy' H.
  assert (Hu : N.to_uint (Z.to_N y) = N.to_uint (Z.to_N y')).
  { pose proof (NilEmpty.usu (N.to_uint (Z.to_N y))) as H1.
    pose proof (NilEmpty.usu (N.to_uint (Z.to_N y'))) as H2.
    rewrite H in H1. rewrite H1 in H2. now injection H2. }
  apply (f_equal N.of_uint) in Hu. rewrite !DecimalN.Unsigned.of_to in Hu. lia.
Qed.

Lemma two_digits_inj (m m' : Z) :
  0 <= m <= 99 -> 0 <= m' <= 99 -> two_digits m = two_digits m' -> m = m'.
Proof.
  intros Hm Hm' H.
  assert (Hall : forallb (fun a => forallb (fun b =>
                    implb (String.eqb (two_digits a) (two_digits b)) (a =? b))
                    (upto (Z.to_nat 100) 0)) (upto (Z.to_nat 100) 0) = true)
    by (vm_compute; reflexivity).
  rewrite forallb_forall in Hall.
  specialize (Hall m (in_upto (Z.to_nat 100) 0 m ltac:(lia))).
  rewrite forallb_forall in Hall.
  specialize (Hall m' (in_upto (Z.to_nat 100) 0 m' ltac:(lia))).
  rewrite H, String.eqb_refl in Hall. cbn in Hall. lia.
Qed.

(** On calendar dates, ['%Y%m%d'] tells the dates apart. *)
Lemma strftime_Ymd_inj (d d' : struct_time) :
  valid_date d -> valid_date d' -> strftime_Ymd d = strftime_Ymd d' -> d = d'.
Proof.
  intros (Hy & Hm & Hd) (Hy' & Hm' & Hd') H. unfold strftime_Ymd in H.
  pose proof (two_digits_number (tm_mon d) ltac:(lia)) as L1.
  pose proof (two_digits_number (tm_mday d) ltac:(lia)) as L2.
  pose proof (two_digits_number (tm_mon d') ltac:(lia)) as L1'.
  pose proof (two_digits_number (tm_mday d') ltac:(lia)) as L2'.
  unfold two_digit_number in *.
  rewrite andb_true_iff, Nat.eqb_eq in L1, L2, L1', L2'.
  apply append_suffix_inj in H; [|rewrite !length_append; lia].
  destruct H as [Hyear H].
  apply append_suffix_inj in H; [|lia]. destruct H as [Hmon Hday].
  apply decimal_inj in Hyear; try lia.
  apply two_digits_inj in Hmon; try lia.
  apply two_digits_inj in Hday; try lia.
  destruct d, d'; cbn in *; congruence.
Qed.

(** X15.  On calendar dates, two items get the same file name exactly when
    their category names (the last pieces of their urls) are equal and
    their dates are equal: only then does one file replace the other. *)
Theorem output_names_collide
    (u u' : string) (d d' : struct_time) :
  valid_date d -> valid_date d' ->
  output_name u d = output_name u' d'
  <-> category_name u = category_name u' /\ d = d'.
Proof.
  intros Hd Hd'. split.
  - unfold output_name. intros H.
    destruct (strftime_Ymd_digits d Hd) as [L _].
    destruct (strftime_Ymd_digits d' Hd') as [L' _].
    cbn [append] in H.
    repeat (injection H as H).
    apply append_suffix_inj in H; [|cbn; rewrite !length_append; cbn; lia].
    destruct H as [Hname H]. injection H as H.
    apply append_suffix_inj in H; [|reflexivity].
    destruct H as [Hymd _]. split; [exact Hname|].
    now apply strftime_Ymd_inj.
  - intros [Hname ->]. unfold output_name. now rewrite Hname.
Qed.

End Script.

Arguments Returned {A} a.
Arguments Raised {A} e.
Arguments PyNone {Result}.
Arguments PyObj {Result} r.


(** ** The theorems at concrete runs *)








(** C6.  The batch of the script on a day the engine is down for "Tablets":
    after the third failure of "Tablets" the loop goes on to "Computers" at
    once; the delay of 5 between categories is slept after "Cell Phones"
    and after "Computers", not after "Tablets". *)
Lemma no_delay_after_a_failed_item :
  snd (main_loop string string (fun r => r)
         (engine_down_at string string 1 "result" "report" (StructTime 2026 11 4))
         0 categories)
  = [Print _ (Scraping _ "Cell Phones");
     NewScraper _ "Cell Phones"; Run _ "Cell Phones";
     Print _ (ExecInfoReport _ "report");
     FileOpened _ "mobilesentrix_Cell Phones_20261104.json";
     FileWritten _ "mobilesentrix_Cell Phones_20261104.json" "result";
     Print _ (Saved _ "mobilesentrix_Cell Phones_20261104.json");
     Sleep _ 5;
     Print _ (Scraping _ "Tablets");
     NewScraper _ "Tablets"; Run _ "Tablets";
     Print _ (AttemptFailed _ 1 "Tablets" "engine timed out");
     Print _ (Waiting _ 5); Sleep _ 5;
     NewScraper _ "Tablets"; Run _ "Tablets";
     Print _ (AttemptFailed _ 2 "Tablets" "engine timed out");
     Print _ (Waiting _ 10); Sleep _ 10;
     NewScraper _ "Tablets"; Run _ "Tablets";
     Print _ (AttemptFailed _ 3 "Tablets" "engine timed out");
     Print _ (GaveUp _ "Tablets" 3);
     Print _ (ErrorScraping _ "Tablets" "engine timed out");
     Print _ (Scraping _ "Computers");
     NewScraper _ "Computers"; Run _ "Computers";
     Print _ (ExecInfoReport _ "report");
     FileOpened _ "mobilesentrix_Computers_20261104.json";
     FileWritten _ "mobilesentrix_Computers_20261104.json" "result";
     Print _ (Saved _ "mobilesentrix_Computers_20261104.json");
     Sleep _ 5].
Proof. vm_compute. reflexivity. Qed.

Lemma saved_file_is_named_after_category_and_date_witness :
  let c := ItemCalls string string (fun _ => completing _ _ "result" "report")
             (StructTime 2026 11 4) None None in
  exists segment ymd content,
    artifacts _ (snd (loop_body string string (fun r => r) c
                        "https://shop.example/catalog/Tablets"))
    = [(("mobilesentrix_" ++ segment ++ "_" ++ ymd ++ ".json")%string, content)]
    /\ segment = last_piece (split "/" "https://shop.example/catalog/Tablets")
    /\ has_char "/" segment = false
    /\ ("https://shop.example/catalog/Tablets" = segment
        \/ exists before,
             "https://shop.example/catalog/Tablets"
             = (before ++ "/" ++ segment)%string)
    /\ (has_char "/" "https://shop.example/catalog/Tablets" = false ->
        segment = "https://shop.example/catalog/Tablets")
    /\ ymd = strftime_Ymd (StructTime 2026 11 4)
    /\ String.length ymd = 8%nat
    /\ all_digits ymd = true
    /\ exists yyyy mm dd,
         ymd = (yyyy ++ mm ++ dd)%string
         /\ String.length yyyy = 4%nat
         /\ String.length mm = 2%nat
         /\ String.length dd = 2%nat
         /\ number_of yyyy = 2026
         /\ number_of mm = 11
         /\ number_of dd = 4.
Proof.
  apply (saved_file_is_named_after_category_and_date string string (fun r => r)
           (ItemCalls string string (fun _ => completing _ _ "result" "report")
              (StructTime 2026 11 4) None None)
           "https://shop.example/catalog/Tablets").
  - unfold valid_date. cbn. lia.
  - reflexivity.
Defined.

Lemma saved_content_is_the_str_of_the_result_witness :
  let c := ItemCalls string string
             (failing_first _ _ 1 boom "{'items': []}" "report")
             (StructTime 2026 11 4) None None in
  exists attempt r,
    0 <= attempt < 3
    /\ on_run _ _ (engine _ _ c attempt) = inr r
    /\ fst (scrape_with_retry _ _ "Tablets" default_max_retries default_delay
              (engine _ _ c)) = Returned (PyObj r)
    /\ artifacts _ (snd (loop_body string string (fun r => r) c "Tablets"))
       = [(output_name "Tablets" (StructTime 2026 11 4), r)].
Proof.
  apply (saved_content_is_the_str_of_the_result string string (fun r => r)
           (ItemCalls string string
              (failing_first _ _ 1 boom "{'items': []}" "report")
              (StructTime 2026 11 4) None None)
           "Tablets").
  reflexivity.
Defined.

(** The same when it is the printing of the report that raises: the first
    result is dropped and the second attempt's is returned. *)
Example error_while_printing_the_report :
  scrape_with_retry string string "Tablets" 3 5
    (fun i => if i =? 0 then print_raising _ _ "first result" "report" boom
              else completing _ _ "second result" "report")
  = (Returned (PyObj "second result"),
     [NewScraper _ "Tablets"; Run _ "Tablets";
      Print _ (AttemptFailed _ 1 "Tablets" "engine timed out");
      Print _ (Waiting _ 5); Sleep _ 5;
      NewScraper _ "Tablets"; Run _ "Tablets";
      Print _ (ExecInfoReport _ "report")]).
Proof. reflexivity. Qed.

(** The scenario of the specification for a batch: "Tablets" exhausts its
    retries, the two other categories are saved. *)
Example batch_with_tablets_down_saves_two_files :
  artifacts _
    (snd (main_loop string string (fun r => r)
            (engine_down_at string string 1 "result" "report" (StructTime 2026 11 4))
            0 categories))
  = [("mobilesentrix_Cell Phones_20261104.json", "result");
     ("mobilesentrix_Computers_20261104.json", "result")].
Proof. vm_compute. reflexivity. Qed.




(** ** The further properties at concrete runs *)

Lemma scrape_with_retry_without_attempts_witness :
  scrape_with_retry string string "Tablets" 0 5
    (fun _ => completing _ _ "result" "report")
  = (Returned PyNone, []).
Proof.
  apply (scrape_with_retry_without_attempts string string "Tablets" 0 5
           (fun _ => completing _ _ "result" "report")).
  lia.
Defined.

Lemma scrape_with_retry_returns_a_run_result_witness :
  let engine := failing_first string string 2 boom "third result" "report" in
  exists k r,
    1 <= k <= 3
    /\ PyObj "third result" = PyObj r
    /\ on_run _ _ (engine (k - 1)) = inr r
    /\ attempts _ (snd (scrape_with_retry _ _ "Tablets" 3 5 engine)) = Z.to_nat k
    /\ forall a, 0 <= a < k - 1 ->
                 exists e, fst (try_body _ _ "Tablets" (engine a)) = Raised e.
Proof.
  apply (scrape_with_retry_returns_a_run_result string string "Tablets" 3 5
           (failing_first string string 2 boom "third result" "report")
           (PyObj "third result")).
  - lia.
  - reflexivity.
Defined.



Lemma scrape_with_retry_total_wait_witness :
  let run := scrape_with_retry string string "Tablets" 3 5
               (fun _ => run_raising _ _ boom) in
  exists k,
    (k <= 2)%nat
    /\ sleeps _ (snd run) = geometric 5 k
    /\ total (sleeps _ (snd run)) = 5 * (2 ^ Z.of_nat k - 1)
    /\ total (sleeps _ (snd run)) <= 15.
Proof.
  apply (scrape_with_retry_total_wait string string "Tablets" 3 5
           (fun _ => run_raising _ _ boom)).
  - lia.
  - lia.
Defined.


Lemma exhausted_item_log_witness :
  let c := engine_down_at string string 1 "result" "report"
             (StructTime 2026 11 4) 1 in
  printed _ (snd (loop_body string string (fun r => r) c "Tablets"))
  = [Scraping _ "Tablets";
     AttemptFailed _ 1 "Tablets" "engine timed out"; Waiting _ 5;
     AttemptFailed _ 2 "Tablets" "engine timed out"; Waiting _ 10;
     AttemptFailed _ 3 "Tablets" "engine timed out";
     GaveUp _ "Tablets" 3;
     ErrorScraping _ "Tablets" "engine timed out"]
  /\ sleeps _ (snd (loop_body string string (fun r => r) c "Tablets")) = [5; 10]
  /\ forall fs,
       files_after _ (snd (loop_body string string (fun r => r) c "Tablets")) fs
       = fs.
Proof.
  apply (exhausted_item_log string string (fun r => r)
           (engine_down_at string string 1 "result" "report"
              (StructTime 2026 11 4) 1)
           "Tablets" (fun _ => boom)).
  intros a Ha. reflexivity.
Defined.

Lemma saved_item_replaces_its_file_witness :
  let c := ItemCalls string string (fun _ => completing _ _ "new result" "report")
             (StructTime 2026 11 4) None None in
  files_after _ (snd (loop_body string string (fun r => r) c "Tablets"))
    (fun _ => Some "old result") "mobilesentrix_Tablets_20261104.json"
  = Some "new result".
Proof.
  apply (saved_item_replaces_its_file string string (fun r => r)
           (ItemCalls string string (fun _ => completing _ _ "new result" "report")
              (StructTime 2026 11 4) None None)
           "Tablets" (PyObj "new result") (fun _ => Some "old result")).
  - reflexivity.
  - reflexivity.
  - reflexivity.
Defined.

Lemma batch_touches_only_its_files_witness :
  files_after _
    (snd (main_loop string string (fun r => r)
            (engine_down_at string string 1 "result" "report" (StructTime 2026 11 4))
            0 categories))
    (fun _ => Some "kept") "notes.txt"
  = Some "kept".
Proof.
  apply (batch_touches_only_its_files string string (fun r => r)
           (engine_down_at string string 1 "result" "report" (StructTime 2026 11 4))
           categories (fun _ => Some "kept") "notes.txt").
  repeat constructor; cbn; discriminate.
Defined.

Lemma failed_write_leaves_a_prefix_witness :
  let c := ItemCalls string string (fun _ => completing _ _ "new result" "report")
             (StructTime 2026 11 4) None (Some (Exn "OSError" "disk full", 3%nat)) in
  let t := snd (loop_body string string (fun r => r) c "Tablets") in
  files_after _ t (fun _ => Some "old result") "mobilesentrix_Tablets_20261104.json"
  = Some "new"
  /\ (exists rest, "new result" = ("new" ++ rest)%string)
  /\ artifacts _ t = []
  /\ saved_lines _ t = []
  /\ error_lines _ t = [("Tablets", "disk full")]
  /\ sleeps _ t = [].
Proof.
  apply (failed_write_leaves_a_prefix string string (fun r => r)
           (ItemCalls string string (fun _ => completing _ _ "new result" "report")
              (StructTime 2026 11 4) None (Some (Exn "OSError" "disk full", 3%nat)))
           "Tablets" (PyObj "new result") (Exn "OSError" "disk full") 3
           (fun _ => Some "old result")).
  - reflexivity.
  - reflexivity.
  - reflexivity.
Defined.

Lemma failure_before_open_leaves_the_files_witness :
  let c := ItemCalls string string (fun _ => completing _ _ "new result" "report")
             (StructTime 2026 11 4) (Some (Exn "PermissionError" "denied")) None in
  (forall fs,
     files_after _ (snd (loop_body string string (fun r => r) c "Tablets")) fs = fs)
  /\ error_lines _ (snd (loop_body string string (fun r => r) c "Tablets"))
     = [("Tablets", "denied")].
Proof.
  apply (failure_before_open_leaves_the_files string string (fun r => r)
           (ItemCalls string string (fun _ => completing _ _ "new result" "report")
              (StructTime 2026 11 4) (Some (Exn "PermissionError" "denied")) None)
           "Tablets" (Exn "PermissionError" "denied")).
  right. exists (PyObj "new result"). split; reflexivity.
Defined.

Lemma output_names_collide_witness :
  output_name "phones/used" (StructTime 2026 11 4)
  = output_name "tablets/used" (StructTime 2026 11 4)
  <-> category_name "phones/used" = category_name "tablets/used"
      /\ StructTime 2026 11 4 = StructTime 2026 11 4.
Proof.
  apply (output_names_collide "phones/used" "tablets/used"
           (StructTime 2026 11 4) (StructTime 2026 11 4));
    unfold valid_date; cbn; lia.
Defined.

Lemma category_name_of_path_witness :
  category_name "https://shop.example/catalog/Tablets" = "Tablets".
Proof.
  apply (category_name_of_path "https://shop.example/catalog" "Tablets").
  reflexivity.
Defined.
